(** * voice-to-obsidian: the clipboard-to-note pipeline and the issue-to-PR scripts

    A shallow embedding of
      - [voice-to-obsidian.py]                       (quota file, daily note, validity filter),
      - [.github/scripts/ai_developer.py]            (the marker parser),
      - [.github/scripts/linear_webhook_handler.py]  (signature check and dispatch),
    with the properties of the specification stated over it.

    Conventions.  A Python [str] is a [string]; a character stands for a
    code point below 256 (for HTTP header values, which arrive Latin-1
    decoded, that is exact).  Python [int] is [Z].  The vault directory is a
    finite map from file name to the text that [read()] returns.  An
    exception that leaves a function is a value of [result]. *)

From Stdlib Require Import ZArith Ascii DecimalString DecimalZ DecimalPos.
From stdpp Require Import base strings gmap list.

Local Open Scope Z_scope.
Set Warnings "-register-all".

(** ** Exceptions *)

Inductive exn : Type :=
  | ValueError
  | TypeError
  | AttributeError
  | BadRequest
  | RequestException.

Inductive result (A : Type) : Type :=
  | Ok (a : A)
  | Raise (e : exn).
Arguments Ok {A} a.
Arguments Raise {A} e.

(** ** The Python built-ins the scripts call *)

Module Py.

Definition nl : string := String "010"%char "".

(** [str.isspace] on one character, for code points below 256:
    TAB..CR, FS..US, SPACE, NEL and NBSP. *)
Definition isspace (c : ascii) : bool :=
  let n := nat_of_ascii c in
  ((9 <=? n)%nat && (n <=? 13)%nat)
  || ((28 <=? n)%nat && (n <=? 32)%nat)
  || (n =? 133)%nat || (n =? 160)%nat.

Definition isdigit (c : ascii) : bool :=
  let n := nat_of_ascii c in (48 <=? n)%nat && (n <=? 57)%nat.

Fixpoint lstrip (s : string) : string :=
  match s with
  | "" => ""
  | String c r => if isspace c then lstrip r else s
  end.

Fixpoint rstrip (s : string) : string :=
  match s with
  | "" => ""
  | String c r =>
      match rstrip r with
      | "" => if isspace c then "" else String c ""
      | r' => String c r'
      end
  end.

(** [s.strip()] *)
Definition strip (s : string) : string := rstrip (lstrip s).

(** [s.split(sep)] for a one-character separator: one more field than
    there are separators, empty fields kept. *)
Fixpoint split_on (sep : ascii) (s : string) : list string :=
  match s with
  | "" => [""]
  | String c r =>
      if Ascii.eqb c sep then "" :: split_on sep r
      else match split_on sep r with
           | w :: ws => String c w :: ws
           | [] => [String c ""]
           end
  end.

(** [s.split()]: the maximal runs of non-whitespace characters. *)
Fixpoint split_ws (s : string) : list string :=
  match s with
  | "" => []
  | String c r =>
      if isspace c then split_ws r
      else match r with
           | "" => [String c ""]
           | String c' _ =>
               if isspace c' then String c "" :: split_ws r
               else match split_ws r with
                    | w :: ws => String c w :: ws
                    | [] => [String c ""]
                    end
           end
  end.

(** [s.startswith(p)] *)
Definition startswith (s p : string) : bool := String.prefix p s.

(** [s.replace(old, new)] for a non-empty [old]: the occurrences are taken
    left to right and do not overlap.  [skip] counts the characters of a
    matched occurrence still to be dropped. *)
Fixpoint replace_go (old new : string) (skip : nat) (s : string) : string :=
  match s with
  | "" => ""
  | String c r =>
      match skip with
      | S k => replace_go old new k r
      | O =>
          if String.prefix old s
          then new +:+ replace_go old new (String.length old - 1) r
          else String c (replace_go old new 0 r)
      end
  end.
Definition replace (s old new : string) : string := replace_go old new 0 s.

(** [sep.join(l)] *)
Definition join (sep : string) (l : list string) : string := String.concat sep l.

(** The truth value of a [str]. *)
Definition truthy (s : string) : bool :=
  match s with "" => false | _ => true end.

(** [str(n)] for an [int]. *)
Definition str (n : Z) : string := NilZero.string_of_int (Z.to_int n).

(** The digits part of an [int(...)] literal: digits, with single
    underscores allowed between two digits. *)
Fixpoint digits_ok (after_digit : bool) (s : string) : bool :=
  match s with
  | "" => after_digit
  | String c r =>
      if isdigit c then digits_ok true r
      else if Ascii.eqb c "_" then after_digit && digits_ok false r
      else false
  end.

Fixpoint drop_underscores (s : string) : string :=
  match s with
  | "" => ""
  | String c r =>
      if Ascii.eqb c "_" then drop_underscores r else String c (drop_underscores r)
  end.

Definition int_digits (s : string) : option Z :=
  if digits_ok false s
  then Z.of_uint <$> NilEmpty.uint_of_string (drop_underscores s)
  else None.

(** The characters [int(...)] skips around a literal: TAB..CR, SPACE, NEL
    and NBSP.  The separators FS..US, which [str.isspace] accepts, are not
    among them: [int] raises on a literal that carries one. *)
Definition int_space (c : ascii) : bool :=
  let n := nat_of_ascii c in
  ((9 <=? n)%nat && (n <=? 13)%nat)
  || (n =? 32)%nat || (n =? 133)%nat || (n =? 160)%nat.

Fixpoint lstrip_by (p : ascii -> bool) (s : string) : string :=
  match s with
  | "" => ""
  | String c r => if p c then lstrip_by p r else s
  end.

Fixpoint rstrip_by (p : ascii -> bool) (s : string) : string :=
  match s with
  | "" => ""
  | String c r =>
      match rstrip_by p r with
      | "" => if p c then "" else String c ""
      | r' => String c r'
      end
  end.

Definition strip_by (p : ascii -> bool) (s : string) : string :=
  rstrip_by p (lstrip_by p s).

(** [int(s)] in base ten; [None] is [ValueError].  The interpreter's
    configurable cap on the number of digits is not modelled. *)
Definition int (s : string) : option Z :=
  match strip_by int_space s with
  | String "+" r => int_digits r
  | String "-" r => Z.opp <$> int_digits r
  | t => int_digits t
  end.

(** [s.encode()]: UTF-8 of code points below 256. *)
Fixpoint encode (s : string) : string :=
  match s with
  | "" => ""
  | String c r =>
      let n := nat_of_ascii c in
      if (n <? 128)%nat then String c (encode r)
      else String (ascii_of_nat (192 + n / 64))
             (String (ascii_of_nat (128 + n mod 64)) (encode r))
  end.

Fixpoint isascii (s : string) : bool :=
  match s with
  | "" => true
  | String c r => (nat_of_ascii c <? 128)%nat && isascii r
  end.

(** Every character of [s] satisfies [p]. *)
Fixpoint all_chars (p : ascii -> bool) (s : string) : bool :=
  match s with
  | "" => true
  | String c r => p c && all_chars p r
  end.

Definition notspace (c : ascii) : bool := negb (isspace c).
Definition isnt (sep c : ascii) : bool := negb (Ascii.eqb c sep).
(** The characters of a ["%Y-%m-%d"] date. *)
Definition datechar (c : ascii) : bool := isdigit c || Ascii.eqb c "-".

End Py.

(** ** [datetime.now()] and the three formats the script asks of it *)

Record datetime : Type := mkDatetime {
  year : nat; month : nat; day : nat; hour : nat; minute : nat
}.

Module Strftime.

(** A decimal numeral, zero-padded on the left to [width]. *)
Definition dec (n : nat) : string := NilEmpty.string_of_uint (Nat.to_uint n).

Fixpoint zeros (k : nat) : string :=
  match k with O => "" | S k' => String "0" (zeros k') end.

Definition pad0 (width n : nat) : string :=
  zeros (width - String.length (dec n)) +:+ dec n.

Definition month_name (m : nat) : string :=
  match m with
  | 1 => "January" | 2 => "February" | 3 => "March" | 4 => "April"
  | 5 => "May" | 6 => "June" | 7 => "July" | 8 => "August"
  | 9 => "September" | 10 => "October" | 11 => "November" | 12 => "December"
  | _ => ""
  end%nat.

(** ["%Y-%m-%d"] *)
Definition ymd (t : datetime) : string :=
  pad0 4 (year t) +:+ "-" +:+ pad0 2 (month t) +:+ "-" +:+ pad0 2 (day t).

(** ["%I:%M %p"] *)
Definition imp (t : datetime) : string :=
  let h12 := match (hour t mod 12)%nat with O => 12%nat | h => h end in
  pad0 2 h12 +:+ ":" +:+ pad0 2 (minute t) +:+ " "
    +:+ (if (hour t <? 12)%nat then "AM" else "PM").

(** ["%B %d, %Y"] *)
Definition bdy (t : datetime) : string :=
  month_name (month t) +:+ " " +:+ pad0 2 (day t) +:+ ", " +:+ pad0 4 (year t).

End Strftime.

(** ** voice-to-obsidian.py *)

Abbreviation vault := (gmap string string).

Module Voice.

Definition MIN_WORDS : nat := 5.
Definition MAX_CHARS : nat := 5000.
Definition DAILY_LIMIT : Z := 100.

(** [daily_count_file], as a name inside the vault directory. *)
Definition daily_count_file : string := ".automation_count.txt".

(** [check_daily_limit()]: [now] is the clock reading, [fs] the vault
    before the call; the vault after the call comes back with the result. *)
Definition check_daily_limit (now : datetime) (fs : vault) : result bool * vault :=
  let today := Strftime.ymd now in
  let reset := (Ok true, <[daily_count_file := today +:+ ",0"]> fs) in
  match fs !! daily_count_file with
  | Some text =>
      match Py.split_on "," (Py.strip text) with
      | [date; count] =>
          if String.eqb date today then
            match Py.int count with
            | Some c => (Ok (c <? DAILY_LIMIT), fs)
            | None => (Raise ValueError, fs)
            end
          else reset
      | _ => reset
      end
  | None => reset
  end.

(** [increment_daily_count()] *)
Definition increment_daily_count (now : datetime) (fs : vault) : result unit * vault :=
  let today := Strftime.ymd now in
  let write (count : Z) :=
    (Ok tt, <[daily_count_file := today +:+ "," +:+ Py.str count]> fs) in
  match fs !! daily_count_file with
  | Some text =>
      match Py.split_on "," (Py.strip text) with
      | [date; count] =>
          if String.eqb date today then
            match Py.int count with
            | Some c => write (c + 1)
            | None => (Raise ValueError, fs)
            end
          else write 1
      | _ => write 1
      end
  | None => write 1
  end.

(** [n] calls of [increment_daily_count] in a row, stopping at the first
    exception. *)
Fixpoint increment_times (n : nat) (now : datetime) (fs : vault) : result unit * vault :=
  match n with
  | O => (Ok tt, fs)
  | S k =>
      match increment_daily_count now fs with
      | (Ok _, fs') => increment_times k now fs'
      | (Raise e, fs') => (Raise e, fs')
      end
  end.

(** [save_to_obsidian(formatted_note)].  The function reads the clock up
    to three times: for the file name, for the subheading and, when the
    file is new, for the date heading. *)
Definition save_to_obsidian (now_name now_time now_head : datetime)
    (formatted_note : string) (fs : vault) : vault :=
  let today := Strftime.ymd now_name in
  let current_time := Strftime.imp now_time in
  let note_file := today +:+ ".md" in
  match fs !! note_file with
  | Some old =>
      <[note_file := old +:+ Py.nl +:+ Py.nl +:+ "## " +:+ current_time
                         +:+ Py.nl +:+ Py.nl +:+ formatted_note]> fs
  | None =>
      <[note_file := "# " +:+ Strftime.bdy now_head +:+ Py.nl +:+ Py.nl +:+ "## "
                         +:+ current_time +:+ Py.nl +:+ Py.nl +:+ formatted_note]> fs
  end.

Definition too_long_warning (text : string) : string :=
  "Warning: Text too long (" +:+ Py.str (Z.of_nat (String.length text))
    +:+ " chars), truncating to " +:+ Py.str (Z.of_nat MAX_CHARS).

(** [is_valid_transcription(text)]: the verdict and the lines printed. *)
Definition is_valid_transcription (text : string) : bool * list string :=
  if negb (Py.truthy text) || (String.length text <? 10)%nat then (false, [])
  else
    let word_count := length (Py.split_ws text) in
    if (word_count <? MIN_WORDS)%nat then (false, [])
    else if (MAX_CHARS <? String.length text)%nat then (true, [too_long_warning text])
    else (true, []).

(** The section one call writes for a note: a blank line, the time-stamped
    subheading, a blank line, the note. *)
Definition note_section (now_time : datetime) (formatted_note : string) : string :=
  Py.nl +:+ Py.nl +:+ "## " +:+ Strftime.imp now_time
    +:+ Py.nl +:+ Py.nl +:+ formatted_note.

(** The name of the daily note of a day. *)
Definition note_file (now_name : datetime) : string := Strftime.ymd now_name +:+ ".md".

(** The text of the quota record [(today, c)]. *)
Definition record (now : datetime) (c : Z) : string :=
  Strftime.ymd now +:+ "," +:+ Py.str c.

End Voice.

(** ** ai_developer.py: the response parser *)

Module Parser.

Definition START : string := "=== FILE:".
Definition STOP : string := "=== END FILE".
Definition default_target : string := "voice_to_obsidian.py".

(** The loop variables of [parse_claude_response]. *)
Record scan : Type := mkScan {
  files : gmap string string;
  current_file : option string;
  current_content : list string;
  in_file : bool
}.

Definition scan0 : scan := mkScan ∅ None [] false.

(** One turn of the [for line in lines] loop. *)
Definition step (st : scan) (line : string) : scan :=
  if Py.startswith line START then
    mkScan (files st) (Some (Py.strip (Py.replace line START ""))) [] true
  else if Py.startswith line STOP then
    match current_file st with
    | Some f =>
        if Py.truthy f
        then mkScan (<[f := Py.join Py.nl (current_content st)]> (files st)) None [] false
        else mkScan (files st) (current_file st) (current_content st) false
    | None => mkScan (files st) (current_file st) (current_content st) false
    end
  else if in_file st then
    mkScan (files st) (current_file st) (current_content st ++ [line]) (in_file st)
  else st.

Definition run (st : scan) (lines : list string) : scan := foldl step st lines.

Definition lines_of (response_text : string) : list string :=
  Py.split_on "010" response_text.

(** [parse_claude_response(response_text)] *)
Definition parse_claude_response (response_text : string) : gmap string string :=
  let fs := files (run scan0 (lines_of response_text)) in
  if bool_decide (fs = ∅) && Py.truthy (Py.strip response_text)
  then <[default_target := Py.strip response_text]> fs
  else fs.

Definition is_start (line : string) : bool := Py.startswith line START.
Definition is_stop (line : string) : bool :=
  negb (Py.startswith line START) && Py.startswith line STOP.
(** The name a start-marker line opens a block under. *)
Definition name_of (line : string) : string := Py.strip (Py.replace line START "").
(** A line that is neither marker. *)
Definition is_body (line : string) : bool :=
  negb (Py.startswith line START) && negb (Py.startswith line STOP).
(** A start marker that opens a block named [f]. *)
Definition opens (f line : string) : bool := is_start line && String.eqb (name_of line) f.

End Parser.

(** ** linear_webhook_handler.py *)

Module Webhook.

(** A decoded JSON value.  Numbers that are not integers behave like the
    integers wherever the handler looks at a value. *)
Inductive json : Type :=
  | JNull
  | JBool (b : bool)
  | JNum (n : Z)
  | JStr (s : string)
  | JArr (l : list json)
  | JObj (m : gmap string json).

Definition GITHUB_REPO : string := "brennaman/voice-to-obsidian".
Definition TARGET_LABEL : string := "ai-development".

(** What the handler reads of a request: [request.data], the
    [Linear-Signature] header and [request.json] ([None]: the body is
    not a JSON document and the accessor raises). *)
Record request : Type := mkRequest {
  data : string;
  linear_signature : option string;
  json_body : option json
}.

Record environ : Type := mkEnviron {
  LINEAR_WEBHOOK_SECRET : option string;
  GITHUB_TOKEN : option string
}.

(** One call of [requests.post] and what comes back. *)
Record dispatch : Type := mkDispatch {
  url : string;
  headers : list (string * string);
  payload : json
}.

Inductive reply : Type :=
  | Reply (status_code : Z) (text : string)
  | NoReply.

(** [jsonify(body), status] *)
Record response : Type := mkResponse {
  body : json;
  status : Z
}.

(** The handler's effects: the calls made to the dispatch endpoint so far,
    and an exception or a value. *)
Definition M (A : Type) : Type := list dispatch -> list dispatch * result A.

Definition ret {A} (a : A) : M A := fun tr => (tr, Ok a).
Definition raise {A} (e : exn) : M A := fun tr => (tr, Raise e).
Definition bind {A B} (c : M A) (k : A -> M B) : M B :=
  fun tr => match c tr with
            | (tr', Ok a) => k a tr'
            | (tr', Raise e) => (tr', Raise e)
            end.
Definition lift {A} (r : result A) : M A := fun tr => (tr, r).

Notation "x <- c ;; k" := (bind c (fun x => k))
  (at level 100, c at next level, right associativity).

Definition opt_truthy (o : option string) : bool :=
  match o with Some s => Py.truthy s | None => false end.

(** [str(o)] inside an f-string, for a value that may be [None]. *)
Definition fmt (o : option string) : string :=
  match o with Some s => s | None => "None" end.

(** [d.get(k)]: only a dict has the method. *)
Definition get (v : json) (k : string) : result (option json) :=
  match v with
  | JObj m => Ok (m !! k)
  | _ => Raise AttributeError
  end.

(** [v == s] for a string literal [s]; [v] is [None] when the key is absent. *)
Definition eq_str (v : option json) (s : string) : bool :=
  match v with
  | Some (JStr t) => String.eqb t s
  | _ => false
  end.

(** A missing key reads as [None]. *)
Definition or_null (v : option json) : json :=
  match v with Some j => j | None => JNull end.

(** [any(label.get('name') == TARGET_LABEL for label in labels)] over the
    elements of a list: stops at the first match. *)
Fixpoint any_label (labels : list json) : result bool :=
  match labels with
  | [] => Ok false
  | label :: rest =>
      match get label "name" with
      | Ok name => if eq_str name TARGET_LABEL then Ok true else any_label rest
      | Raise e => Raise e
      end
  end.

(** The same over any JSON value: a dict iterates over its keys and a string
    over its characters, which have no [get]; the rest is not iterable. *)
Definition has_label (labels : json) : result bool :=
  match labels with
  | JArr l => any_label l
  | JObj m => if (size m =? 0)%nat then Ok false else Raise AttributeError
  | JStr s => if Py.truthy s then Raise AttributeError else Ok false
  | _ => Raise TypeError
  end.

Section Handler.

(** [hmac.new(key, msg, hashlib.sha256).hexdigest()] *)
Variable hmac_sha256_hexdigest : string -> string -> string.
(** The dispatch endpoint. *)
Variable endpoint : dispatch -> reply.

(** [hmac.compare_digest] on two [str]: both must be ASCII. *)
Definition compare_digest (a b : string) : result bool :=
  if Py.isascii a && Py.isascii b then Ok (String.eqb a b) else Raise TypeError.

Definition verify_linear_signature (payload signature : string) (secret : option string)
    : result bool :=
  match secret with
  | Some key =>
      if negb (Py.truthy key) then Ok true
      else compare_digest signature (hmac_sha256_hexdigest (Py.encode key) payload)
  | None => Ok true
  end.

Definition requests_post (d : dispatch) : M (Z * string) :=
  fun tr => (tr ++ [d],
             match endpoint d with
             | Reply code text => Ok (code, text)
             | NoReply => Raise RequestException
             end).

Definition msg (k v : string) : json := JObj {[ k := JStr v ]}.

Definition linear_webhook (env : environ) (req : request) : M response :=
  let signature := linear_signature req in
  let webhook_secret := LINEAR_WEBHOOK_SECRET env in
  verified <- lift (match signature with
                    | Some sig =>
                        if opt_truthy webhook_secret && Py.truthy sig
                        then verify_linear_signature (data req) sig webhook_secret
                        else Ok true
                    | None => Ok true
                    end) ;;
  if negb verified then ret (mkResponse (msg "error" "Invalid signature") 401)
  else
    data <- lift (match json_body req with Some j => Ok j | None => Raise BadRequest end) ;;
    type <- lift (get data "type") ;;
    if negb (eq_str type "Issue")
    then ret (mkResponse (msg "message" "Ignored - not an issue update") 200)
    else
      action <- lift (get data "action") ;;
      if negb (eq_str action "update")
      then ret (mkResponse (msg "message" "Ignored - not an issue update") 200)
      else
        issue <- lift (get data "data") ;;
        let issue_data := match issue with Some j => j | None => JObj ∅ end in
        labels <- lift (get issue_data "labels") ;;
        has_target_label <-
          lift (has_label (match labels with Some j => j | None => JArr [] end)) ;;
        if negb has_target_label
        then ret (mkResponse
                    (msg "message" ("Ignored - no '" +:+ TARGET_LABEL +:+ "' label")) 200)
        else
          issue_id <- lift (get issue_data "id") ;;
          issue_title <- lift (get issue_data "title") ;;
          issue_description <- lift (get issue_data "description") ;;
          issue_identifier <- lift (get issue_data "identifier") ;;
          let github_url :=
            "https://api.github.com/repos/" +:+ GITHUB_REPO +:+ "/dispatches" in
          let hdrs :=
            [("Accept", "application/vnd.github+json");
             ("Authorization", "Bearer " +:+ fmt (GITHUB_TOKEN env));
             ("X-GitHub-Api-Version", "2022-11-28")] in
          let pl := JObj {[
            "event_type" := JStr "linear_issue_labeled";
            "client_payload" := JObj {[
               "issue_id" := or_null issue_id;
               "issue_title" := or_null issue_title;
               "issue_description" :=
                  match issue_description with Some j => j | None => JStr "" end;
               "issue_identifier" := or_null issue_identifier ]} ]} in
          r <- requests_post (mkDispatch github_url hdrs pl) ;;
          if fst r =? 204
          then ret (mkResponse (msg "message" "Workflow triggered successfully") 200)
          else ret (mkResponse
                      (JObj {[ "error" := JStr "Failed to trigger workflow";
                               "details" := JStr (snd r) ]}) 500).

(** The verdict of the handler's first step: [Ok false] is the 401 answer,
    [Ok true] lets the request through. *)
Definition signature_check (env : environ) (req : request) : result bool :=
  match linear_signature req with
  | Some sig =>
      if opt_truthy (LINEAR_WEBHOOK_SECRET env) && Py.truthy sig
      then verify_linear_signature (data req) sig (LINEAR_WEBHOOK_SECRET env)
      else Ok true
  | None => Ok true
  end.

End Handler.

(** What the handler answers once the endpoint has replied. *)
Definition answer (r : reply) : result response :=
  match r with
  | Reply code text =>
      if code =? 204
      then Ok (mkResponse (msg "message" "Workflow triggered successfully") 200)
      else Ok (mkResponse (JObj {[ "error" := JStr "Failed to trigger workflow";
                                   "details" := JStr text ]}) 500)
  | NoReply => Raise RequestException
  end.

(** The status of the response, when the handler returns one. *)
Definition status_of (r : result response) : option Z :=
  match r with Ok resp => Some (status resp) | Raise _ => None end.

(** An issue-update event carrying the trigger label. *)
Definition labelled_issue : json :=
  JObj {[ "type" := JStr "Issue";
          "action" := JStr "update";
          "data" := JObj {[
             "id" := JStr "abc-1";
             "title" := JStr "Add .env support";
             "identifier" := JStr "PROJ-1";
             "labels" := JArr [JObj {[ "name" := JStr "bug" ]};
                               JObj {[ "name" := JStr TARGET_LABEL ]}] ]} ]}.

End Webhook.

(** ** voice-to-obsidian.py: the polling loop *)

Module Loop.
Import Voice.

Definition CHECK_INTERVAL : Z := 2.

(** [s[:n]] for a non-negative [n]. *)
Fixpoint slice_to (n : nat) (s : string) : string :=
  match n, s with
  | S k, String c r => String c (slice_to k r)
  | _, _ => ""
  end.

(** [get_clipboard()]: the output of [pbpaste] stripped, or the empty string
    when running it raised ([None]). *)
Definition get_clipboard (pbpaste : option string) : string :=
  match pbpaste with
  | Some stdout => Py.strip stdout
  | None => ""
  end.

(** The clock readings one turn of the loop may take, in the order of the
    calls: [check_daily_limit], the three of [save_to_obsidian], and
    [increment_daily_count]. *)
Record readings : Type := mkReadings {
  at_check : datetime;
  at_name : datetime;
  at_time : datetime;
  at_head : datetime;
  at_count : datetime
}.

(** What the loop carries from one turn to the next: the global
    [last_clipboard_content] and the vault. *)
Record loop : Type := mkLoop {
  last_clipboard_content : string;
  notes : vault
}.

(** One turn of the [while True] loop of [main].  [format_with_claude]
    answers [None] when the API call failed; the API key is there, [main]
    having checked it before the loop.  The result is the number of
    seconds the turn sleeps, or the exception that ends the process
    (only [KeyboardInterrupt] is caught); the state is the one the turn
    leaves behind. *)
Definition turn (format_with_claude : string -> option string) (clock : readings)
    (pbpaste : option string) (st : loop) : result Z * loop :=
  let current_clipboard := get_clipboard pbpaste in
  if negb (String.eqb current_clipboard (last_clipboard_content st)) then
    if fst (is_valid_transcription current_clipboard) then
      match check_daily_limit (at_check clock) (notes st) with
      | (Raise e, fs) => (Raise e, mkLoop (last_clipboard_content st) fs)
      | (Ok false, fs) => (Ok 3600, mkLoop (last_clipboard_content st) fs)
      | (Ok true, fs) =>
          let text_to_process := slice_to MAX_CHARS current_clipboard in
          let formatted := format_with_claude text_to_process in
          match formatted with
          | Some note =>
              if Py.truthy note then
                let fs1 := save_to_obsidian (at_name clock) (at_time clock)
                             (at_head clock) note fs in
                match increment_daily_count (at_count clock) fs1 with
                | (Ok _, fs2) => (Ok CHECK_INTERVAL, mkLoop current_clipboard fs2)
                | (Raise e, fs2) => (Raise e, mkLoop (last_clipboard_content st) fs2)
                end
              else (Ok CHECK_INTERVAL, mkLoop current_clipboard fs)
          | None => (Ok CHECK_INTERVAL, mkLoop current_clipboard fs)
          end
      end
    else (Ok CHECK_INTERVAL, mkLoop current_clipboard (notes st))
  else (Ok CHECK_INTERVAL, st).

(** A run of calls of [save_to_obsidian], each with its clock readings and
    its note. *)
Fixpoint save_all (calls : list (datetime * datetime * datetime * string)) (fs : vault)
    : vault :=
  match calls with
  | [] => fs
  | (n, t, h, note) :: rest => save_all rest (save_to_obsidian n t h note fs)
  end.

End Loop.

(** ** trigger_workflow.py *)

Module Trigger.
Import Webhook.

(** How a run of the script ends. *)
Inductive outcome : Type :=
  | Returned
  | SystemExit (code : Z)
  | Uncaught (e : exn).

(** The request both scripts send to the dispatch endpoint. *)
Definition dispatch_of (token : option string)
    (issue_id issue_title issue_description issue_identifier : json) : dispatch :=
  mkDispatch
    ("https://api.github.com/repos/" +:+ GITHUB_REPO +:+ "/dispatches")
    [("Accept", "application/vnd.github+json");
     ("Authorization", "Bearer " +:+ fmt token);
     ("X-GitHub-Api-Version", "2022-11-28")]
    (JObj {[
       "event_type" := JStr "linear_issue_labeled";
       "client_payload" := JObj {[
          "issue_id" := issue_id;
          "issue_title" := issue_title;
          "issue_description" := issue_description;
          "issue_identifier" := issue_identifier ]} ]}).

(** [trigger_workflow(issue_id, issue_title, issue_description,
    issue_identifier)]: the calls made to the endpoint and how the
    function ends. *)
Definition trigger_workflow (token : option string) (endpoint : dispatch -> reply)
    (issue_id issue_title issue_description issue_identifier : string)
    : list dispatch * outcome :=
  if negb (opt_truthy token) then ([], SystemExit 1)
  else
    let d := dispatch_of token (JStr issue_id) (JStr issue_title)
               (JStr issue_description) (JStr issue_identifier) in
    ([d], match endpoint d with
          | Reply code text => if code =? 204 then Returned else SystemExit 1
          | NoReply => Uncaught RequestException
          end).

(** [main()] on [sys.argv]. *)
Definition main (token : option string) (endpoint : dispatch -> reply)
    (argv : list string) : list dispatch * outcome :=
  match argv with
  | _ :: issue_id :: issue_title :: issue_description :: rest =>
      let issue_identifier :=
        match rest with
        | identifier :: _ => identifier
        | [] => "MANUAL-" +:+ issue_id
        end in
      trigger_workflow token endpoint issue_id issue_title issue_description
        issue_identifier
  | _ => ([], SystemExit 1)
  end.

End Trigger.

(** ** Shapes the statements below speak of *)

Module Shapes.

(** A text that is empty or begins with a whitespace character. *)
Definition lead (t : string) : bool :=
  match t with "" => true | String c _ => Py.isspace c end.

(** A non-empty name taken from a start marker line among [all]. *)
Definition named_in (all : list string) (f : string) : Prop :=
  Py.truthy f = true
  /\ exists line, In line all /\ Parser.is_start line = true /\ Parser.name_of line = f.

(** A label object whose name is not the trigger label. *)
Definition other_label (j : Webhook.json) : bool :=
  match j with
  | Webhook.JObj m => negb (Webhook.eq_str (m !! "name") Webhook.TARGET_LABEL)
  | _ => false
  end.

Definition is_obj (j : Webhook.json) : bool :=
  match j with Webhook.JObj _ => true | _ => false end.

End Shapes.

Example str_0 : Py.str 0 = "0". Proof. reflexivity. Qed.
Example str_m5 : Py.str (-5) = "-5". Proof. reflexivity. Qed.
Example int_ex1 : Py.int " +1_000 " = Some 1000. Proof. reflexivity. Qed.
Example int_ex2 : Py.int "1__0" = None. Proof. reflexivity. Qed.
Example int_ex3 : Py.int "-007" = Some (-7). Proof. reflexivity. Qed.
Example int_ex4 : Py.int "" = None. Proof. reflexivity. Qed.
Example int_ex5 : Py.int (String "028"%char "5") = None. Proof. reflexivity. Qed.
Example int_ex6 : Py.int (String "160"%char "5 ") = Some 5. Proof. reflexivity. Qed.
Example split_ex : Py.split_on "," "a,,b," = ["a"; ""; "b"; ""]. Proof. reflexivity. Qed.
Example ws_ex : Py.split_ws "  ab  c d " = ["ab"; "c"; "d"]. Proof. reflexivity. Qed.
Example strip_ex : Py.strip "  a b  " = "a b". Proof. reflexivity. Qed.
Example repl_ex : Py.replace "=== FILE: a.txt ===" "=== FILE:" "" = " a.txt ===".
Proof. reflexivity. Qed.
Example ymd_ex : Strftime.ymd (mkDatetime 2024 3 7 15 4) = "2024-03-07". Proof. reflexivity. Qed.
Example imp_ex : Strftime.imp (mkDatetime 2024 3 7 15 4) = "03:04 PM". Proof. reflexivity. Qed.
Example imp_ex0 : Strftime.imp (mkDatetime 2024 3 7 0 4) = "12:04 AM". Proof. reflexivity. Qed.
Example bdy_ex : Strftime.bdy (mkDatetime 2024 3 7 15 4) = "March 07, 2024". Proof. reflexivity. Qed.
Example parse_ex :
  Parser.parse_claude_response ("=== FILE: a.txt" +:+ Py.nl +:+ "HELLO" +:+ Py.nl +:+ "=== END FILE ===")
  = {[ "a.txt" := "HELLO" ]}.
Proof. vm_compute. reflexivity. Qed.

(** * Facts about the built-ins *)

Module PyFacts.
Import Py.

Lemma app_cons c a b : String c a +:+ b = String c (a +:+ b).
Proof. reflexivity. Qed.

Lemma app_nil_l b : "" +:+ b = b.
Proof. reflexivity. Qed.

Lemma app_assoc a b c : (a +:+ b) +:+ c = a +:+ (b +:+ c).
Proof. induction a as [|x a IH]; [reflexivity|]. rewrite !app_cons, IH. reflexivity. Qed.

Lemma all_chars_app p a b :
  all_chars p (a +:+ b) = all_chars p a && all_chars p b.
Proof.
  induction a as [|x a IH]; [reflexivity|].
  rewrite app_cons. simpl. rewrite IH. apply andb_assoc.
Qed.

Lemma all_chars_impl (p q : ascii -> bool) s :
  (forall c, p c = true -> q c = true) ->
  all_chars p s = true -> all_chars q s = true.
Proof.
  intros Hpq. induction s as [|x s IH]; simpl; [done|].
  intros [Hx Hs]%andb_true_iff. rewrite (Hpq _ Hx), IH; done.
Qed.

Lemma lstrip_notspace s : all_chars notspace s = true -> lstrip s = s.
Proof.
  destruct s as [|c s]; simpl; [done|].
  unfold notspace. intros [Hc _]%andb_true_iff.
  apply negb_true_iff in Hc. rewrite Hc. reflexivity.
Qed.

Lemma rstrip_notspace s : all_chars notspace s = true -> rstrip s = s.
Proof.
  induction s as [|c s IH]; simpl; [done|].
  unfold notspace at 1. intros [Hc Hs]%andb_true_iff.
  apply negb_true_iff in Hc. rewrite (IH Hs), Hc. destruct s; reflexivity.
Qed.

Lemma strip_notspace s : all_chars notspace s = true -> strip s = s.
Proof.
  intros H. unfold strip. rewrite (lstrip_notspace _ H). apply rstrip_notspace, H.
Qed.

Lemma split_on_whole sep s : all_chars (isnt sep) s = true -> split_on sep s = [s].
Proof.
  induction s as [|c s IH]; simpl; [done|].
  unfold isnt at 1. intros [Hc Hs]%andb_true_iff.
  apply negb_true_iff in Hc. rewrite Hc, (IH Hs). reflexivity.
Qed.

Lemma split_on_app sep a b :
  all_chars (isnt sep) a = true ->
  split_on sep (a +:+ String sep b) = a :: split_on sep b.
Proof.
  induction a as [|c a IH]; intros H.
  - rewrite app_nil_l. simpl. rewrite Ascii.eqb_refl. reflexivity.
  - rewrite app_cons. simpl in *. unfold isnt at 1 in H.
    apply andb_true_iff in H as [Hc Ha]. apply negb_true_iff in Hc.
    rewrite Hc, (IH Ha). reflexivity.
Qed.

(** Decimal numerals. *)

Lemma uint_digits d : all_chars isdigit (NilEmpty.string_of_uint d) = true.
Proof. induction d; simpl; auto. Qed.

Lemma digits_ok_uint d b :
  digits_ok b (NilEmpty.string_of_uint d)
  = match d with Decimal.Nil => b | _ => true end.
Proof.
  revert b. induction d; intros b; simpl; try reflexivity;
    rewrite IHd; destruct d; reflexivity.
Qed.

Lemma drop_underscores_uint d :
  drop_underscores (NilEmpty.string_of_uint d) = NilEmpty.string_of_uint d.
Proof. induction d; simpl; rewrite ?IHd; reflexivity. Qed.

Lemma int_digits_uint d :
  d <> Decimal.Nil ->
  int_digits (NilEmpty.string_of_uint d) = Some (Z.of_uint d).
Proof.
  intros Hd. unfold int_digits.
  rewrite digits_ok_uint, drop_underscores_uint, NilEmpty.usu.
  destruct d; [congruence|reflexivity..].
Qed.

Lemma isdigit_notspace c : isdigit c = true -> notspace c = true.
Proof. destruct c as [[] [] [] [] [] [] [] []]; (discriminate || reflexivity). Qed.

Lemma isdigit_datechar c : isdigit c = true -> datechar c = true.
Proof. unfold datechar. intros ->. reflexivity. Qed.

Lemma datechar_notspace c : datechar c = true -> notspace c = true.
Proof. destruct c as [[] [] [] [] [] [] [] []]; (discriminate || reflexivity). Qed.

Lemma datechar_nocomma c : datechar c = true -> isnt "," c = true.
Proof. destruct c as [[] [] [] [] [] [] [] []]; (discriminate || reflexivity). Qed.

Lemma isdigit_nocomma c : isdigit c = true -> isnt "," c = true.
Proof. intros H. apply datechar_nocomma, isdigit_datechar, H. Qed.

Lemma strip_by_none p s :
  all_chars (fun c => negb (p c)) s = true -> strip_by p s = s.
Proof.
  intros H. unfold strip_by.
  assert (Hl : lstrip_by p s = s).
  { destruct s as [|c r]; simpl in *; [reflexivity|].
    apply andb_true_iff in H as [Hc _]. apply negb_true_iff in Hc.
    rewrite Hc. reflexivity. }
  rewrite Hl. clear Hl. induction s as [|c r IH]; simpl in *; [reflexivity|].
  apply andb_true_iff in H as [Hc Hr]. apply negb_true_iff in Hc.
  rewrite (IH Hr), Hc. destruct r; reflexivity.
Qed.

Lemma notspace_int c : notspace c = true -> negb (int_space c) = true.
Proof. destruct c as [[] [] [] [] [] [] [] []]; (discriminate || reflexivity). Qed.

Lemma strip_int_notspace s :
  all_chars notspace s = true -> strip_by int_space s = s.
Proof.
  intros H. apply strip_by_none.
  eapply all_chars_impl; [apply notspace_int | exact H].
Qed.

Lemma int_unsigned c r :
  isdigit c = true -> all_chars notspace r = true ->
  int (String c r) = int_digits (String c r).
Proof.
  intros Hc Hr. unfold int. rewrite strip_int_notspace.
  - destruct c as [[] [] [] [] [] [] [] []]; (discriminate || reflexivity).
  - simpl. rewrite (isdigit_notspace _ Hc). exact Hr.
Qed.

Lemma pos_to_uint_not_nil p : Pos.to_uint p <> Decimal.Nil.
Proof.
  intros H. pose proof (DecimalPos.Unsigned.of_to p) as E.
  rewrite H in E. discriminate.
Qed.

Lemma nilzero_uint d :
  d <> Decimal.Nil -> NilZero.string_of_uint d = NilEmpty.string_of_uint d.
Proof. destruct d; [congruence|reflexivity..]. Qed.

Lemma int_uint d :
  d <> Decimal.Nil -> int (NilEmpty.string_of_uint d) = Some (Z.of_uint d).
Proof.
  intros Hd. pose proof (uint_digits d) as Hall.
  rewrite <- (int_digits_uint d Hd).
  destruct (NilEmpty.string_of_uint d) as [|c r] eqn:E.
  - destruct d; (congruence || discriminate E).
  - simpl in Hall. apply andb_true_iff in Hall as [Hc Hr].
    apply int_unsigned; [exact Hc|].
    eapply all_chars_impl; [apply isdigit_notspace | exact Hr].
Qed.

(** [int(str(z)) == z] *)
Lemma int_str z : int (str z) = Some z.
Proof.
  destruct z as [|p|p]; [reflexivity| |]; unfold str; simpl Z.to_int;
    unfold NilZero.string_of_int;
    rewrite (nilzero_uint _ (pos_to_uint_not_nil p)).
  - rewrite (int_uint _ (pos_to_uint_not_nil p)).
    unfold Z.of_uint. rewrite DecimalPos.Unsigned.of_to. reflexivity.
  - unfold int. rewrite strip_int_notspace.
    + rewrite (int_digits_uint _ (pos_to_uint_not_nil p)). simpl.
      unfold Z.of_uint. rewrite DecimalPos.Unsigned.of_to. reflexivity.
    + simpl. eapply all_chars_impl; [apply isdigit_notspace | apply uint_digits].
Qed.

Lemma str_datechars z : all_chars datechar (str z) = true.
Proof.
  destruct z as [|p|p]; [reflexivity| |]; unfold str; simpl Z.to_int;
    unfold NilZero.string_of_int;
    rewrite (nilzero_uint _ (pos_to_uint_not_nil p)); simpl;
    (eapply all_chars_impl; [apply isdigit_datechar | apply uint_digits]).
Qed.

Lemma zeros_digits k : all_chars isdigit (Strftime.zeros k) = true.
Proof. induction k; simpl; auto. Qed.

Lemma pad0_digits w n : all_chars isdigit (Strftime.pad0 w n) = true.
Proof.
  unfold Strftime.pad0, Strftime.dec.
  rewrite all_chars_app, zeros_digits, uint_digits. reflexivity.
Qed.

Lemma ymd_datechars t : all_chars datechar (Strftime.ymd t) = true.
Proof.
  unfold Strftime.ymd. rewrite !all_chars_app.
  rewrite !(all_chars_impl _ _ _ isdigit_datechar (pad0_digits _ _)). reflexivity.
Qed.

(** A line [date,count] written by the script reads back as its two fields. *)
Lemma record_fields t z :
  split_on "," (strip (Strftime.ymd t +:+ "," +:+ str z)) = [Strftime.ymd t; str z].
Proof.
  change ("," +:+ str z) with (String "," (str z)).
  rewrite strip_notspace.
  - rewrite split_on_app
      by (eapply all_chars_impl; [apply datechar_nocomma | apply ymd_datechars]).
    rewrite split_on_whole
      by (eapply all_chars_impl; [apply datechar_nocomma | apply str_datechars]).
    reflexivity.
  - rewrite all_chars_app. simpl.
    rewrite (all_chars_impl _ _ _ datechar_notspace (ymd_datechars t)).
    rewrite (all_chars_impl _ _ _ datechar_notspace (str_datechars z)).
    reflexivity.
Qed.

End PyFacts.

(** * The quota file *)

Module QuotaFacts.
Import Voice.

Lemma check_other_day now (fs : vault) text date count :
  fs !! daily_count_file = Some text ->
  Py.split_on "," (Py.strip text) = [date; count] ->
  date <> Strftime.ymd now ->
  check_daily_limit now fs = (Ok true, <[daily_count_file := record now 0]> fs).
Proof.
  intros Hf Hs Hd. unfold check_daily_limit. rewrite Hf, Hs.
  apply String.eqb_neq in Hd. rewrite Hd. reflexivity.
Qed.

Lemma increment_absent now (fs : vault) :
  fs !! daily_count_file = None ->
  increment_daily_count now fs = (Ok tt, <[daily_count_file := record now 1]> fs).
Proof. intros Hf. unfold increment_daily_count. rewrite Hf. reflexivity. Qed.

Lemma increment_same_day now (fs : vault) text count c :
  fs !! daily_count_file = Some text ->
  Py.split_on "," (Py.strip text) = [Strftime.ymd now; count] ->
  Py.int count = Some c ->
  increment_daily_count now fs = (Ok tt, <[daily_count_file := record now (c + 1)]> fs).
Proof.
  intros Hf Hs Hc. unfold increment_daily_count.
  rewrite Hf, Hs, String.eqb_refl, Hc. reflexivity.
Qed.

Lemma increment_other_day now (fs : vault) text date count :
  fs !! daily_count_file = Some text ->
  Py.split_on "," (Py.strip text) = [date; count] ->
  date <> Strftime.ymd now ->
  increment_daily_count now fs = (Ok tt, <[daily_count_file := record now 1]> fs).
Proof.
  intros Hf Hs Hd. unfold increment_daily_count. rewrite Hf, Hs.
  apply String.eqb_neq in Hd. rewrite Hd. reflexivity.
Qed.

Lemma increment_record now (fs : vault) c :
  fs !! daily_count_file = Some (record now c) ->
  increment_daily_count now fs = (Ok tt, <[daily_count_file := record now (c + 1)]> fs).
Proof.
  intros Hf. eapply increment_same_day; [exact Hf | apply PyFacts.record_fields |].
  apply PyFacts.int_str.
Qed.

Lemma increment_times_record n : forall now (fs : vault) c,
  fs !! daily_count_file = Some (record now c) ->
  increment_times n now fs
  = (Ok tt, <[daily_count_file := record now (c + Z.of_nat n)]> fs).
Proof.
  induction n as [|n IH]; intros now fs c Hf.
  - simpl. rewrite Z.add_0_r, insert_id; done.
  - cbn [increment_times]. rewrite (increment_record _ _ _ Hf).
    rewrite (IH now _ (c + 1)) by apply lookup_insert_eq.
    rewrite insert_insert_eq. do 3 f_equal. lia.
Qed.

(** C1, as the code has it.  When the quota file holds a record whose date
    is not today's, [check_daily_limit] answers [True] and rewrites the file
    to the record (today, 0); nothing else in the vault changes. *)
Theorem check_daily_limit_stale_resets now (fs : vault) text date count :
  fs !! daily_count_file = Some text ->
  Py.split_on "," (Py.strip text) = [date; count] ->
  date <> Strftime.ymd now ->
  check_daily_limit now fs = (Ok true, <[daily_count_file := record now 0]> fs)
  /\ snd (check_daily_limit now fs) !! daily_count_file = Some (record now 0)
  /\ Py.split_on "," (Py.strip (record now 0)) = [Strftime.ymd now; "0"]
  /\ (forall f, f <> daily_count_file -> snd (check_daily_limit now fs) !! f = fs !! f).
Proof.
  intros Hf Hs Hd. rewrite (check_other_day _ _ _ _ _ Hf Hs Hd). simpl.
  split; [reflexivity|]. split; [apply lookup_insert_eq|].
  split; [apply PyFacts.record_fields|].
  intros f Hne. apply lookup_insert_ne. congruence.
Qed.

Lemma check_daily_limit_stale_resets_witness :
  let now := mkDatetime 2024 1 2 9 30 in
  let fs : vault := {[ daily_count_file := "2024-01-01,5" ]} in
  check_daily_limit now fs = (Ok true, <[daily_count_file := "2024-01-02,0"]> fs)
  /\ snd (check_daily_limit now fs) !! daily_count_file = Some "2024-01-02,0"
  /\ Py.split_on "," (Py.strip "2024-01-02,0") = ["2024-01-02"; "0"]
  /\ (forall f, f <> daily_count_file -> snd (check_daily_limit now fs) !! f = fs !! f).
Proof.
  intros now fs.
  apply (check_daily_limit_stale_resets now fs "2024-01-01,5" "2024-01-01" "5").
  - vm_compute. reflexivity.
  - vm_compute. reflexivity.
  - vm_compute. discriminate.
Defined.

(** The claim C1 as written fails: the record (2024-01-01, 5), checked on
    2024-01-02 without any increment, is replaced by (2024-01-02, 0). *)
Lemma check_daily_limit_stale_counterexample :
  let now := mkDatetime 2024 1 2 9 30 in
  let fs : vault := {[ daily_count_file := "2024-01-01,5" ]} in
  fs !! daily_count_file = Some "2024-01-01,5"
  /\ Py.split_on "," (Py.strip "2024-01-01,5") = ["2024-01-01"; "5"]
  /\ String.eqb "2024-01-01" (Strftime.ymd now) = false
  /\ snd (check_daily_limit now fs) !! daily_count_file = Some "2024-01-02,0"
  /\ bool_decide (snd (check_daily_limit now fs) !! daily_count_file
                  = fs !! daily_count_file) = false.
Proof. repeat apply conj; vm_compute; reflexivity. Qed.

(** C5.  From an absent record, [n+1] increments on one day leave the record
    (today, n+1); from the record (today, 0), [n] increments leave
    (today, n).  One increment of a record dated today adds exactly one to
    its count, and an increment of a record of another date stores
    (today, 1).  The stored line reads back as its date and count. *)
Theorem increment_daily_count_counts now (fs : vault) :
  (fs !! daily_count_file = None -> forall n : nat,
     increment_times (S n) now fs
     = (Ok tt, <[daily_count_file := record now (Z.of_nat (S n))]> fs))
  /\ (fs !! daily_count_file = Some (record now 0) -> forall n : nat,
     increment_times n now fs
     = (Ok tt, <[daily_count_file := record now (Z.of_nat n)]> fs))
  /\ (forall text count c,
     fs !! daily_count_file = Some text ->
     Py.split_on "," (Py.strip text) = [Strftime.ymd now; count] ->
     Py.int count = Some c ->
     increment_daily_count now fs
     = (Ok tt, <[daily_count_file := record now (c + 1)]> fs))
  /\ (forall text date count,
     fs !! daily_count_file = Some text ->
     Py.split_on "," (Py.strip text) = [date; count] ->
     date <> Strftime.ymd now ->
     increment_daily_count now fs
     = (Ok tt, <[daily_count_file := record now 1]> fs))
  /\ (forall c : Z,
     Py.split_on "," (Py.strip (record now c)) = [Strftime.ymd now; Py.str c]
     /\ Py.int (Py.str c) = Some c).
Proof.
  repeat split.
  - intros Hf n. cbn [increment_times]. rewrite (increment_absent _ _ Hf).
    rewrite (increment_times_record n now _ 1) by apply lookup_insert_eq.
    rewrite insert_insert_eq. do 3 f_equal. lia.
  - intros Hf n. rewrite (increment_times_record n now _ 0 Hf). reflexivity.
  - intros text count c. apply increment_same_day.
  - intros text date count. apply increment_other_day.
  - apply PyFacts.record_fields.
  - apply PyFacts.int_str.
Qed.

Lemma increment_daily_count_counts_witness :
  let now := mkDatetime 2024 1 2 9 30 in
  increment_times 3 now ∅ = (Ok tt, {[ daily_count_file := "2024-01-02,3" ]})
  /\ increment_times 12 now {[ daily_count_file := "2024-01-02,0" ]}
     = (Ok tt, {[ daily_count_file := "2024-01-02,12" ]})
  /\ increment_daily_count now {[ daily_count_file := "2024-01-02,41" ]}
     = (Ok tt, {[ daily_count_file := "2024-01-02,42" ]})
  /\ increment_daily_count now {[ daily_count_file := "2024-01-01,41" ]}
     = (Ok tt, {[ daily_count_file := "2024-01-02,1" ]}).
Proof.
  intros now.
  destruct (increment_daily_count_counts now ∅) as (Habsent & _).
  destruct (increment_daily_count_counts now {[ daily_count_file := "2024-01-02,0" ]})
    as (_ & Hzero & _).
  destruct (increment_daily_count_counts now {[ daily_count_file := "2024-01-02,41" ]})
    as (_ & _ & Hsame & _).
  destruct (increment_daily_count_counts now {[ daily_count_file := "2024-01-01,41" ]})
    as (_ & _ & _ & Hother & _).
  split; [|split; [|split]].
  - rewrite (Habsent eq_refl 2%nat). vm_compute. reflexivity.
  - rewrite (Hzero eq_refl 12%nat). vm_compute. reflexivity.
  - rewrite (Hsame "2024-01-02,41" "41" 41 eq_refl eq_refl eq_refl).
    vm_compute. reflexivity.
  - rewrite (Hother "2024-01-01,41" "2024-01-01" "41" eq_refl eq_refl
               ltac:(vm_compute; discriminate)).
    vm_compute. reflexivity.
Defined.

End QuotaFacts.

(** * The validity filter *)

Module FilterFacts.
Import Voice.

Lemma falsy_is_short t :
  negb (Py.truthy t) || (String.length t <? 10)%nat = (String.length t <? 10)%nat.
Proof. destruct t; reflexivity. Qed.

(** The filter as one equation: the verdict, and the warning when the text
    is accepted and longer than [MAX_CHARS]. *)
Lemma is_valid_transcription_eq t :
  is_valid_transcription t
  = if (String.length t <? 10)%nat || (length (Py.split_ws t) <? MIN_WORDS)%nat
    then (false, [])
    else (true, if (MAX_CHARS <? String.length t)%nat then [too_long_warning t] else []).
Proof.
  unfold is_valid_transcription. rewrite falsy_is_short.
  destruct (String.length t <? 10)%nat; [reflexivity|]. cbn [orb].
  destruct (length (Py.split_ws t) <? MIN_WORDS)%nat; [reflexivity|].
  destruct (MAX_CHARS <? String.length t)%nat; reflexivity.
Qed.

(** C4.  The filter rejects exactly the texts shorter than 10 characters or
    with fewer than 5 whitespace-separated words, and accepts every other
    text; a text longer than 5000 characters is accepted all the same, the
    only difference being one printed warning line.  The filter returns a
    verdict and no text, so it cannot truncate. *)
Theorem is_valid_transcription_spec (t : string) :
  (fst (is_valid_transcription t) = false
     <-> (String.length t < 10)%nat \/ (length (Py.split_ws t) < 5)%nat)
  /\ ((10 <= String.length t)%nat /\ (5 <= length (Py.split_ws t))%nat
     -> fst (is_valid_transcription t) = true)
  /\ ((10 <= String.length t)%nat /\ (5 <= length (Py.split_ws t))%nat
       /\ (5000 < String.length t)%nat
     -> is_valid_transcription t = (true, [too_long_warning t]))
  /\ snd (is_valid_transcription t)
     = if fst (is_valid_transcription t) && (5000 <? String.length t)%nat
       then [too_long_warning t] else [].
Proof.
  rewrite is_valid_transcription_eq. unfold MIN_WORDS.
  change 5000%nat with MAX_CHARS. generalize MAX_CHARS (too_long_warning t).
  intros limit warning.
  destruct (Nat.ltb_spec (String.length t) 10) as [Hl|Hl];
  destruct (Nat.ltb_spec (length (Py.split_ws t)) 5) as [Hw|Hw];
  destruct (Nat.ltb_spec limit (String.length t)) as [Hm|Hm]; cbn [orb andb fst snd];
  (split; [split; [intros; lia | intros [?|?]; (reflexivity || lia)] |]);
  (split; [intros [? ?]; (reflexivity || lia) |]);
  (split; [intros (? & ? & ?); (reflexivity || lia) | reflexivity]).
Qed.

Lemma is_valid_transcription_spec_witness :
  let long := "a b c d " +:+ Strftime.zeros 5000 in
  fst (is_valid_transcription "one two three four five") = true
  /\ fst (is_valid_transcription "one two three four") = false
  /\ fst (is_valid_transcription "a b c d e") = false
  /\ is_valid_transcription long = (true, [too_long_warning long]).
Proof.
  intros long.
  split; [|split; [|split]].
  - apply (is_valid_transcription_spec "one two three four five").
    split; apply Nat.leb_le; vm_compute; reflexivity.
  - apply (is_valid_transcription_spec "one two three four").
    right. apply Nat.ltb_lt. vm_compute. reflexivity.
  - apply (is_valid_transcription_spec "a b c d e").
    left. apply Nat.ltb_lt. vm_compute. reflexivity.
  - apply (is_valid_transcription_spec long).
    split; [|split]; (apply Nat.leb_le || apply Nat.ltb_lt); vm_compute; reflexivity.
Defined.

End FilterFacts.

(** * The daily note *)

Module NoteFacts.
Import Voice.

Lemma save_new (n t h : datetime) note (fs : vault) :
  fs !! note_file n = None ->
  save_to_obsidian n t h note fs
  = <[note_file n := "# " +:+ Strftime.bdy h +:+ note_section t note]> fs.
Proof.
  intros Hf. unfold save_to_obsidian. fold (note_file n). rewrite Hf. reflexivity.
Qed.

Lemma save_append (n t h : datetime) note (fs : vault) old :
  fs !! note_file n = Some old ->
  save_to_obsidian n t h note fs = <[note_file n := old +:+ note_section t note]> fs.
Proof.
  intros Hf. unfold save_to_obsidian. fold (note_file n). rewrite Hf. reflexivity.
Qed.

(** C9.  Two notes A then B saved on the same date end up in the one file
    of that date, B's time-stamped section right after everything that was
    there once A was saved.  When the file does not exist the first save
    creates it with the date heading; when it exists its text is kept as a
    prefix.  No other file of the vault changes. *)
Theorem save_to_obsidian_twice (nA tA hA nB tB hB : datetime) (A B : string) (fs : vault) :
  Strftime.ymd nA = Strftime.ymd nB ->
  let file := note_file nA in
  let after_A := save_to_obsidian nA tA hA A fs in
  let after_B := save_to_obsidian nB tB hB B after_A in
  (fs !! file = None ->
     after_A = <[file := "# " +:+ Strftime.bdy hA +:+ note_section tA A]> fs
     /\ after_B = <[file := ("# " +:+ Strftime.bdy hA +:+ note_section tA A)
                              +:+ note_section tB B]> fs)
  /\ (forall old, fs !! file = Some old ->
     after_A = <[file := old +:+ note_section tA A]> fs
     /\ after_B = <[file := (old +:+ note_section tA A) +:+ note_section tB B]> fs)
  /\ (exists text, after_A !! file = Some text
                   /\ after_B !! file = Some (text +:+ note_section tB B))
  /\ (forall f, f <> file -> after_B !! f = fs !! f).
Proof.
  intros Hday file after_A after_B.
  assert (HfB : note_file nB = file) by (unfold file, note_file; congruence).
  assert (Hstep : forall text, after_A !! file = Some text ->
            after_B = <[file := text +:+ note_section tB B]> after_A).
  { intros text Ht. unfold after_B. rewrite <- HfB in Ht |- *.
    apply save_append, Ht. }
  split; [|split; [|split]].
  - intros Hf. assert (EA := save_new nA tA hA A fs Hf). fold file after_A in EA.
    split; [exact EA|].
    rewrite (Hstep _ ltac:(rewrite EA; apply lookup_insert_eq)), EA.
    apply insert_insert_eq.
  - intros old Hf. assert (EA := save_append nA tA hA A fs old Hf).
    fold file after_A in EA. split; [exact EA|].
    rewrite (Hstep _ ltac:(rewrite EA; apply lookup_insert_eq)), EA.
    apply insert_insert_eq.
  - destruct (fs !! file) as [old|] eqn:Hf.
    + assert (EA := save_append nA tA hA A fs old Hf). fold file after_A in EA.
      exists (old +:+ note_section tA A).
      assert (Ht : after_A !! file = Some (old +:+ note_section tA A))
        by (rewrite EA; apply lookup_insert_eq).
      split; [exact Ht|]. rewrite (Hstep _ Ht). apply lookup_insert_eq.
    + assert (EA := save_new nA tA hA A fs Hf). fold file after_A in EA.
      exists ("# " +:+ Strftime.bdy hA +:+ note_section tA A).
      assert (Ht : after_A !! file
                   = Some ("# " +:+ Strftime.bdy hA +:+ note_section tA A))
        by (rewrite EA; apply lookup_insert_eq).
      split; [exact Ht|]. rewrite (Hstep _ Ht). apply lookup_insert_eq.
  - intros f Hne.
    assert (HA : after_A !! f = fs !! f).
    { unfold after_A, save_to_obsidian. fold (note_file nA). fold file.
      destruct (fs !! file); apply lookup_insert_ne; congruence. }
    rewrite <- HA. unfold after_B, save_to_obsidian. fold (note_file nB).
    rewrite HfB. destruct (after_A !! file); apply lookup_insert_ne; congruence.
Qed.

Lemma save_to_obsidian_twice_witness :
  let morning := mkDatetime 2024 3 7 9 5 in
  let evening := mkDatetime 2024 3 7 21 40 in
  let after_A := save_to_obsidian morning morning morning "Note A" ∅ in
  let after_B := save_to_obsidian evening evening evening "Note B" after_A in
  after_A = {[ "2024-03-07.md" :=
      "# March 07, 2024" +:+ Py.nl +:+ Py.nl +:+ "## 09:05 AM" +:+ Py.nl +:+ Py.nl
      +:+ "Note A" ]}
  /\ after_B = {[ "2024-03-07.md" :=
      "# March 07, 2024" +:+ Py.nl +:+ Py.nl +:+ "## 09:05 AM" +:+ Py.nl +:+ Py.nl
      +:+ "Note A" +:+ Py.nl +:+ Py.nl +:+ "## 09:40 PM" +:+ Py.nl +:+ Py.nl +:+ "Note B" ]}.
Proof.
  intros morning evening after_A after_B.
  destruct (save_to_obsidian_twice morning morning morning evening evening evening
              "Note A" "Note B" ∅ eq_refl) as (Hnew & _).
  destruct (Hnew eq_refl) as [EA EB].
  split.
  - unfold after_A. rewrite EA. vm_compute. reflexivity.
  - unfold after_B, after_A. rewrite EB. vm_compute. reflexivity.
Defined.

End NoteFacts.

(** * The response parser *)

Module ParserFacts.
Import Parser.

Lemma run_app st l1 l2 : run st (l1 ++ l2) = run (run st l1) l2.
Proof. apply foldl_app. Qed.

Lemma step_start st line :
  is_start line = true ->
  step st line = mkScan (files st) (Some (name_of line)) [] true.
Proof. unfold is_start, step. intros ->. reflexivity. Qed.

Lemma step_stop_commit st line f :
  is_stop line = true -> current_file st = Some f -> Py.truthy f = true ->
  step st line = mkScan (<[f := Py.join Py.nl (current_content st)]> (files st)) None [] false.
Proof.
  unfold is_stop, step. intros [Hs He]%andb_true_iff Hc Ht.
  apply negb_true_iff in Hs. rewrite Hs, He, Hc, Ht. reflexivity.
Qed.


Lemma step_body st line :
  is_body line = true ->
  step st line
  = if in_file st
    then mkScan (files st) (current_file st) (current_content st ++ [line]) (in_file st)
    else st.
Proof.
  unfold is_body, step. intros [Hs He]%andb_true_iff.
  apply negb_true_iff in Hs, He. rewrite Hs, He. reflexivity.
Qed.

(** Lines outside a block are discarded. *)
Lemma run_outside lines : forall st,
  in_file st = false -> forallb is_body lines = true -> run st lines = st.
Proof.
  induction lines as [|l ls IH]; intros st Hin Hall; [reflexivity|].
  simpl in Hall. apply andb_true_iff in Hall as [Hl Hls].
  change (run st (l :: ls)) with (run (step st l) ls).
  rewrite (step_body _ _ Hl), Hin. apply IH; assumption.
Qed.

(** Lines inside a block are buffered in order. *)
Lemma run_inside lines : forall st,
  in_file st = true -> forallb is_body lines = true ->
  run st lines = mkScan (files st) (current_file st) (current_content st ++ lines) true.
Proof.
  induction lines as [|l ls IH]; intros st Hin Hall.
  - simpl. rewrite app_nil_r. destruct st; simpl in *; subst; reflexivity.
  - simpl in Hall. apply andb_true_iff in Hall as [Hl Hls].
    change (run st (l :: ls)) with (run (step st l) ls).
    rewrite (step_body _ _ Hl), Hin.
    rewrite IH by (simpl; done).
    simpl. rewrite <- app_assoc. reflexivity.
Qed.

(** A complete block commits its newline-joined body under its name. *)
Lemma run_block st s b e :
  is_start s = true -> Py.truthy (name_of s) = true ->
  forallb is_body b = true -> is_stop e = true ->
  run st (s :: b ++ [e])
  = mkScan (<[name_of s := Py.join Py.nl b]> (files st)) None [] false.
Proof.
  intros Hs Ht Hb He.
  change (run st (s :: b ++ [e])) with (run (step st s) (b ++ [e])).
  rewrite (step_start _ _ Hs), run_app.
  rewrite (run_inside b); [|reflexivity|exact Hb].
  simpl. rewrite (step_stop_commit _ e (name_of s)); [reflexivity|exact He|reflexivity|exact Ht].
Qed.

(** Without a start marker naming [f], the binding of [f] stays as it is. *)
Lemma run_keeps f lines : forall st,
  current_file st <> Some f ->
  forallb (fun l => negb (opens f l)) lines = true ->
  files (run st lines) !! f = files st !! f.
Proof.
  induction lines as [|l ls IH]; intros st Hc Hall; [reflexivity|].
  simpl in Hall. apply andb_true_iff in Hall as [Hl Hls].
  change (run st (l :: ls)) with (run (step st l) ls).
  assert (Hstep : current_file (step st l) <> Some f
                  /\ files (step st l) !! f = files st !! f).
  { unfold step. destruct (Py.startswith l START) eqn:Hs.
    - simpl. split; [|reflexivity]. intros [= E].
      unfold opens, is_start in Hl. fold (name_of l) in E.
      rewrite Hs, E, String.eqb_refl in Hl. discriminate.
    - destruct (Py.startswith l STOP).
      + destruct (current_file st) as [g|] eqn:Hg.
        * destruct (Py.truthy g); simpl; [|done].
          split; [done|]. apply lookup_insert_ne. congruence.
        * simpl. done.
      + destruct (in_file st); simpl; done. }
  destruct Hstep as [Hc' Hf']. rewrite IH by assumption. exact Hf'.
Qed.



Lemma parse_nonempty r :
  files (run scan0 (lines_of r)) <> ∅ ->
  parse_claude_response r = files (run scan0 (lines_of r)).
Proof.
  intros Hne. unfold parse_claude_response.
  rewrite bool_decide_eq_false_2 by exact Hne. reflexivity.
Qed.

Lemma parse_empty r :
  files (run scan0 (lines_of r)) = ∅ ->
  parse_claude_response r
  = if Py.truthy (Py.strip r) then {[ default_target := Py.strip r ]} else ∅.
Proof.
  intros He. unfold parse_claude_response. rewrite He.
  rewrite bool_decide_eq_true_2 by reflexivity. simpl.
  destruct (Py.truthy (Py.strip r)); reflexivity.
Qed.

Lemma lookup_nonempty (m : gmap string string) k v : m !! k = Some v -> m <> ∅.
Proof. intros Hk ->. rewrite lookup_empty in Hk. discriminate. Qed.

(** C3, as the code has it.  On a response none of whose lines is a start
    or end marker, the parser returns the one-entry mapping from the default
    target to the response with its surrounding whitespace stripped, when
    something is left after stripping; it returns the empty mapping when the
    response is whitespace only. *)
Theorem parse_no_markers (r : string) :
  forallb is_body (lines_of r) = true ->
  (Py.truthy (Py.strip r) = true ->
     parse_claude_response r = {[ default_target := Py.strip r ]})
  /\ (Py.strip r = "" -> parse_claude_response r = ∅).
Proof.
  intros Hall.
  assert (He : files (run scan0 (lines_of r)) = ∅)
    by (rewrite run_outside by done; reflexivity).
  rewrite (parse_empty _ He). split.
  - intros ->. reflexivity.
  - intros ->. reflexivity.
Qed.

Lemma parse_no_markers_witness :
  let r := "  def f():" +:+ Py.nl +:+ "    pass" +:+ Py.nl in
  parse_claude_response r = {[ default_target := "def f():" +:+ Py.nl +:+ "    pass" ]}
  /\ parse_claude_response ("  " +:+ Py.nl) = ∅.
Proof.
  intros r. split.
  - apply (parse_no_markers r); vm_compute; reflexivity.
  - apply (parse_no_markers ("  " +:+ Py.nl)); vm_compute; reflexivity.
Defined.

(** The claim C3 as written fails: the response [" x"] is non-empty and has
    no marker, and the value stored is ["x"], not the full text. *)
Lemma parse_no_markers_counterexample :
  let r := " x" in
  Py.truthy r = true
  /\ forallb is_body (lines_of r) = true
  /\ parse_claude_response r = {[ default_target := "x" ]}
  /\ bool_decide (parse_claude_response r = {[ default_target := r ]}) = false.
Proof. repeat apply conj; vm_compute; reflexivity. Qed.

(** Last write wins, under the name the code extracts from the start
    line: when the response holds two complete blocks whose extracted name
    is [f], and no later start marker gives [f] again, [f] is bound to the
    newline-joined body of the second block alone. *)
Theorem parse_last_block_wins (r : string) pre s1 b1 e1 mid s2 b2 e2 post f :
  lines_of r = pre ++ s1 :: b1 ++ e1 :: mid ++ s2 :: b2 ++ e2 :: post ->
  is_start s1 = true -> name_of s1 = f ->
  forallb is_body b1 = true -> is_stop e1 = true ->
  is_start s2 = true -> name_of s2 = f ->
  forallb is_body b2 = true -> is_stop e2 = true ->
  Py.truthy f = true ->
  forallb (fun l => negb (opens f l)) post = true ->
  files (run scan0 (pre ++ s1 :: b1 ++ [e1])) !! f = Some (Py.join Py.nl b1)
  /\ parse_claude_response r !! f = Some (Py.join Py.nl b2).
Proof.
  intros Hr Hs1 Hn1 Hb1 He1 Hs2 Hn2 Hb2 He2 Ht Hpost. subst f. split.
  - rewrite run_app, run_block by done. simpl. apply lookup_insert_eq.
  - assert (Hf : files (run scan0 (lines_of r)) !! name_of s1
                 = Some (Py.join Py.nl b2)).
    { rewrite Hr.
      replace (pre ++ s1 :: b1 ++ e1 :: mid ++ s2 :: b2 ++ e2 :: post)
        with ((pre ++ s1 :: b1 ++ e1 :: mid) ++ (s2 :: b2 ++ [e2]) ++ post)
        by (simplify_list_eq; reflexivity).
      rewrite run_app, run_app, run_block by (rewrite ?Hn2; done).
      rewrite run_keeps by (simpl; done).
      simpl. rewrite Hn2. apply lookup_insert_eq. }
    rewrite parse_nonempty by (eapply lookup_nonempty, Hf). exact Hf.
Qed.

Lemma parse_last_block_wins_witness :
  let r := "intro" +:+ Py.nl +:+ "=== FILE: a.txt" +:+ Py.nl +:+ "old" +:+ Py.nl
           +:+ "=== END FILE ===" +:+ Py.nl +:+ "between" +:+ Py.nl
           +:+ "=== FILE: a.txt" +:+ Py.nl +:+ "new 1" +:+ Py.nl +:+ "new 2" +:+ Py.nl
           +:+ "=== END FILE ===" +:+ Py.nl +:+ "=== FILE: b.txt" +:+ Py.nl +:+ "other"
           +:+ Py.nl +:+ "=== END FILE ===" in
  files (run scan0 ["intro"; "=== FILE: a.txt"; "old"; "=== END FILE ==="]) !! "a.txt"
  = Some "old"
  /\ parse_claude_response r !! "a.txt" = Some ("new 1" +:+ Py.nl +:+ "new 2").
Proof.
  intros r.
  apply (parse_last_block_wins r ["intro"] "=== FILE: a.txt" ["old"] "=== END FILE ==="
           ["between"] "=== FILE: a.txt" ["new 1"; "new 2"] "=== END FILE ==="
           ["=== FILE: b.txt"; "other"; "=== END FILE ==="] "a.txt");
    vm_compute; reflexivity.
Defined.

(** C6 on the code.  On two complete blocks for [a.txt] written in the
    marker format of the script's own prompt, [=== FILE: a.txt ===], the
    second block does overwrite the first, but under the key [a.txt ===]:
    the extraction leaves the closing [===] of the start marker in the
    name.  The result has that one entry, and the file name [a.txt] is bound
    to nothing, neither to the second block's content nor to the first's. *)
Theorem parse_same_name_example :
  let r := "=== FILE: a.txt ===" +:+ Py.nl +:+ "old" +:+ Py.nl +:+ "=== END FILE ==="
           +:+ Py.nl +:+ "=== FILE: a.txt ===" +:+ Py.nl +:+ "new" +:+ Py.nl
           +:+ "=== END FILE ===" in
  lines_of r = ["=== FILE: a.txt ==="; "old"; "=== END FILE ===";
                "=== FILE: a.txt ==="; "new"; "=== END FILE ==="]
  /\ name_of "=== FILE: a.txt ===" = "a.txt ==="
  /\ map_to_list (parse_claude_response r) = [("a.txt ===", "new")]
  /\ parse_claude_response r !! "a.txt ===" = Some "new"
  /\ parse_claude_response r !! "a.txt" = None.
Proof. repeat apply conj; vm_compute; reflexivity. Qed.

(** C7 on the code.  On the three lines [=== FILE: a.txt ===], [HELLO],
    [=== END FILE ===] the parser returns one entry whose key is
    [a.txt ===]: the name is what is left of the start line once the
    opening [=== FILE:] is removed and the ends are stripped, so the closing
    [===] of the marker stays in it.  Nothing is bound to [a.txt]. *)
Theorem parse_marker_example :
  let r := "=== FILE: a.txt ===" +:+ Py.nl +:+ "HELLO" +:+ Py.nl +:+ "=== END FILE ===" in
  lines_of r = ["=== FILE: a.txt ==="; "HELLO"; "=== END FILE ==="]
  /\ name_of "=== FILE: a.txt ===" = "a.txt ==="
  /\ parse_claude_response r = {[ "a.txt ===" := "HELLO" ]}
  /\ parse_claude_response r !! "a.txt" = None
  /\ bool_decide (parse_claude_response r = {[ "a.txt" := "HELLO" ]}) = false.
Proof. repeat apply conj; vm_compute; reflexivity. Qed.

(** Blank responses. *)

Lemma rstrip_empty s : Py.rstrip s = "" -> Py.all_chars Py.isspace s = true.
Proof.
  induction s as [|c r IH]; [reflexivity|]. simpl.
  destruct (Py.rstrip r); [|discriminate].
  destruct (Py.isspace c); [|discriminate]. intros _. apply IH. reflexivity.
Qed.

Lemma lstrip_space s :
  Py.all_chars Py.isspace (Py.lstrip s) = true -> Py.all_chars Py.isspace s = true.
Proof.
  induction s as [|c r IH]; [reflexivity|]. simpl.
  destruct (Py.isspace c) eqn:Hc; [exact IH|]. simpl. rewrite Hc. discriminate.
Qed.

Lemma strip_empty s : Py.strip s = "" -> Py.all_chars Py.isspace s = true.
Proof. intros H. apply lstrip_space, rstrip_empty, H. Qed.

Lemma split_on_space sep s :
  Py.all_chars Py.isspace s = true ->
  forallb (Py.all_chars Py.isspace) (Py.split_on sep s) = true.
Proof.
  induction s as [|c r IH]; [reflexivity|]. simpl.
  intros [Hc Hr]%andb_true_iff. specialize (IH Hr).
  destruct (Ascii.eqb c sep); [exact IH|].
  destruct (Py.split_on sep r) as [|w ws]; simpl in *; rewrite Hc; [reflexivity|].
  exact IH.
Qed.

Lemma space_is_body l : Py.all_chars Py.isspace l = true -> is_body l = true.
Proof.
  destruct l as [|c r]; [reflexivity|]. simpl. intros [Hc _]%andb_true_iff.
  unfold is_body, Py.startswith, START, STOP.
  destruct c as [[] [] [] [] [] [] [] []]; (discriminate Hc || reflexivity).
Qed.

Lemma blank_lines_body r :
  Py.strip r = "" -> forallb is_body (lines_of r) = true.
Proof.
  intros H. pose proof (split_on_space "010" r (strip_empty r H)) as Hall.
  unfold lines_of. induction (Py.split_on "010" r) as [|l ls IH]; [reflexivity|].
  simpl in *. apply andb_true_iff in Hall as [Hl Hls].
  rewrite (space_is_body l Hl), IH by exact Hls. reflexivity.
Qed.





End ParserFacts.

(** * The webhook handler *)

Module WebhookFacts.
Import Webhook.

Section Facts.
Variable hmac_sha256_hexdigest : string -> string -> string.
Variable endpoint : dispatch -> reply.

Abbreviation handler := (linear_webhook hmac_sha256_hexdigest endpoint).

Lemma bind_lift {A B} (r : result A) (k : A -> M B) tr :
  bind (lift r) k tr = match r with Ok a => k a tr | Raise e => (tr, Raise e) end.
Proof. destruct r; reflexivity. Qed.

Ltac next_result tac :=
  rewrite bind_lift;
  match goal with
  | |- context [match ?r with Ok _ => _ | Raise _ => _ end] =>
      destruct r eqn:?; [|tac]
  end.

Ltac next_test tac :=
  match goal with
  | |- context [if negb ?b then _ else _] => destruct b eqn:?; cbn [negb]; [|tac]
  end.

(** Every path through the handler after the signature check, with [tac]
    closing the paths that answer before the endpoint is called. *)
Ltac walk tac :=
  next_result tac; next_result tac; next_test tac;
  next_result tac; next_test tac;
  next_result tac; next_result tac; next_result tac; next_test tac;
  next_result tac; next_result tac; next_result tac; next_result tac.

(** The four ways the handler ends: an exception before any call, the 401
    answer, a 200 answer without a call, or one call to the endpoint and
    the answer made from its reply. *)
Lemma handler_cases env req :
  (exists e, handler env req [] = ([], Raise e))
  \/ (signature_check hmac_sha256_hexdigest env req = Ok false
      /\ handler env req []
         = ([], Ok (mkResponse (msg "error" "Invalid signature") 401)))
  \/ (signature_check hmac_sha256_hexdigest env req = Ok true
      /\ exists b, handler env req [] = ([], Ok (mkResponse b 200)))
  \/ (signature_check hmac_sha256_hexdigest env req = Ok true
      /\ exists d, handler env req [] = ([d], answer (endpoint d))).
Proof.
  unfold linear_webhook. rewrite bind_lift.
  change (match linear_signature req with Some _ => _ | None => _ end)
    with (signature_check hmac_sha256_hexdigest env req).
  destruct (signature_check hmac_sha256_hexdigest env req) as [[|]|e].
  - cbn [negb].
    walk ltac:(first [ left; eexists; reflexivity
                     | right; right; left; split;
                       [reflexivity | eexists; reflexivity] ]).
    right; right; right. split; [reflexivity|].
    unfold bind, requests_post, answer, ret.
    match goal with
    | |- context [endpoint ?d] => exists d; destruct (endpoint d) as [code text|]
    end; [|reflexivity].
    cbn [fst snd]. destruct (code =? 204); reflexivity.
  - right; left. split; reflexivity.
  - left. eexists. reflexivity.
Qed.

Lemma answer_status r s :
  status_of (answer r) = Some s -> s = 200 \/ s = 500.
Proof.
  destruct r as [code text|]; simpl; [|discriminate].
  destruct (code =? 204); intros [= <-]; auto.
Qed.

(** The 401 answer is the failed signature check and nothing else. *)
Lemma handler_401 env req :
  status_of (snd (handler env req [])) = Some 401
  <-> signature_check hmac_sha256_hexdigest env req = Ok false.
Proof.
  destruct (handler_cases env req)
    as [[e E]|[[Hv E]|[[Hv [b E]]|[Hv [d E]]]]]; rewrite E; simpl.
  - split; [discriminate|]. intros Hf. revert E. unfold linear_webhook.
    rewrite bind_lift.
    change (match linear_signature req with Some _ => _ | None => _ end)
      with (signature_check hmac_sha256_hexdigest env req).
    rewrite Hf. discriminate.
  - split; [intros _; exact Hv | reflexivity].
  - rewrite Hv. split; discriminate.
  - rewrite Hv. split; [|discriminate].
    intros H%answer_status. destruct H; discriminate.
Qed.

Lemma compare_digest_false a b :
  compare_digest a b = Ok false
  <-> Py.isascii a = true /\ Py.isascii b = true /\ String.eqb a b = false.
Proof.
  unfold compare_digest.
  destruct (Py.isascii a), (Py.isascii b), (String.eqb a b); simpl;
    split; (intros (? & ? & ?) || intros ?); (discriminate || auto).
Qed.

Lemma signature_check_false env req :
  signature_check hmac_sha256_hexdigest env req = Ok false
  <-> exists secret sig,
        LINEAR_WEBHOOK_SECRET env = Some secret /\ Py.truthy secret = true
        /\ linear_signature req = Some sig /\ Py.truthy sig = true
        /\ compare_digest sig (hmac_sha256_hexdigest (Py.encode secret) (data req))
           = Ok false.
Proof.
  unfold signature_check, verify_linear_signature, opt_truthy.
  destruct (linear_signature req) as [sig|];
    [|split; [discriminate | intros (? & ? & ? & ? & ? & ? & ?); discriminate]].
  destruct (LINEAR_WEBHOOK_SECRET env) as [secret|];
    [|split; [discriminate | intros (? & ? & ? & ? & ? & ? & ?); discriminate]].
  destruct (Py.truthy secret) eqn:Hs, (Py.truthy sig) eqn:Hg; simpl.
  - split.
    + intros H. exists secret, sig. auto.
    + intros (? & ? & [= <-] & _ & [= <-] & _ & H). exact H.
  - split; [discriminate|]. intros (? & ? & _ & _ & [= <-] & ? & _). congruence.
  - split; [discriminate|]. intros (? & ? & [= <-] & ? & _). congruence.
  - split; [discriminate|]. intros (? & ? & [= <-] & ? & _). congruence.
Qed.

(** C2, as the code has it.  A request makes at most one call to the
    dispatch endpoint, whatever the reply (no retry).  When the call is
    made, the answer is computed from the reply: status 200 when the remote
    status is 204, status 500 for every other remote status, and the
    exception of [requests] passes through when there is no reply. *)
Theorem dispatch_answer env req :
  (length (fst (handler env req [])) <= 1)%nat
  /\ (forall d, fst (handler env req []) = [d] ->
        snd (handler env req []) = answer (endpoint d)
        /\ (forall code text, endpoint d = Reply code text ->
              status_of (snd (handler env req []))
              = Some (if code =? 204 then 200 else 500))
        /\ (endpoint d = NoReply ->
              snd (handler env req []) = Raise RequestException)).
Proof.
  destruct (handler_cases env req)
    as [[e E]|[[_ E]|[[_ [b E]]|[_ [d E]]]]]; rewrite E; simpl;
    (split; [lia|]); intros d' [=]. subst d'.
  split; [reflexivity|]. split.
  - intros code text ->. simpl. destruct (code =? 204); reflexivity.
  - intros ->. reflexivity.
Qed.

(** A non-empty signature header that is not ASCII makes
    [hmac.compare_digest] raise [TypeError] before any answer is built: the
    handler does not reach its 401 answer. *)
Lemma non_ascii_signature_raises env req secret sig :
  LINEAR_WEBHOOK_SECRET env = Some secret -> Py.truthy secret = true ->
  linear_signature req = Some sig -> Py.truthy sig = true ->
  Py.isascii sig = false ->
  handler env req [] = ([], Raise TypeError).
Proof.
  intros Hs Hts Hg Htg Hascii. unfold linear_webhook.
  rewrite bind_lift, Hg, Hs. simpl. rewrite Hts, Htg. simpl.
  unfold compare_digest. rewrite Hascii. reflexivity.
Qed.

(** C10, as the code has it.  For a request whose signature header, when
    it has one, is ASCII text, as the hex digest always is, the 401 answer
    is given exactly when the secret is a non-empty string, the signature
    header is a non-empty string, and the header differs from the hex
    digest of the raw body.  With no signature header or an empty one, or
    with an empty secret, the request is handled with no verification at
    all: the check passes whatever the digest would be. *)
Theorem invalid_signature_iff env req :
  (forall key body, Py.isascii (hmac_sha256_hexdigest key body) = true) ->
  (forall sig, linear_signature req = Some sig -> Py.isascii sig = true) ->
  (status_of (snd (handler env req [])) = Some 401
   <-> exists secret sig,
         LINEAR_WEBHOOK_SECRET env = Some secret /\ Py.truthy secret = true
         /\ linear_signature req = Some sig /\ Py.truthy sig = true
         /\ String.eqb sig (hmac_sha256_hexdigest (Py.encode secret) (data req)) = false)
  /\ (opt_truthy (linear_signature req) = false
       \/ opt_truthy (LINEAR_WEBHOOK_SECRET env) = false ->
        signature_check hmac_sha256_hexdigest env req = Ok true
        /\ forall other_hmac,
             linear_webhook other_hmac endpoint env req [] = handler env req []).
Proof.
  intros Hhex Hheader. split.
  - rewrite handler_401, signature_check_false.
    split; intros (secret & sig & H1 & H2 & H3 & H4 & H5);
      exists secret, sig; repeat (split; [assumption|]).
    + apply compare_digest_false in H5 as (_ & _ & H5). exact H5.
    + apply compare_digest_false. auto.
  - intros Hoff.
    assert (Hfalse : forall sig, linear_signature req = Some sig ->
              opt_truthy (LINEAR_WEBHOOK_SECRET env) && Py.truthy sig = false).
    { intros sig Hg. destruct Hoff as [Hsig|Hsec].
      - rewrite Hg in Hsig. simpl in Hsig. rewrite Hsig. apply andb_false_r.
      - rewrite Hsec. reflexivity. }
    split.
    + unfold signature_check. destruct (linear_signature req) as [sig|]; [|reflexivity].
      rewrite (Hfalse sig eq_refl). reflexivity.
    + intros other. unfold linear_webhook.
      destruct (linear_signature req) as [sig|]; [|reflexivity].
      rewrite (Hfalse sig eq_refl). reflexivity.
Qed.

End Facts.

Lemma dispatch_answer_witness :
  let env := mkEnviron None (Some "token") in
  let req := mkRequest "" None (Some labelled_issue) in
  let hmac := fun _ _ : string => "" in
  let accepted := fun _ : dispatch => Reply 204 "" in
  let refused := fun _ : dispatch => Reply 422 "Unprocessable" in
  status_of (snd (linear_webhook hmac accepted env req [])) = Some 200
  /\ status_of (snd (linear_webhook hmac refused env req [])) = Some 500.
Proof.
  intros env req hmac accepted refused.
  destruct (dispatch_answer hmac accepted env req) as [_ Ha].
  destruct (dispatch_answer hmac refused env req) as [_ Hr].
  assert (Hda : exists d, fst (linear_webhook hmac accepted env req []) = [d])
    by (eexists; vm_compute; reflexivity).
  assert (Hdr : exists d, fst (linear_webhook hmac refused env req []) = [d])
    by (eexists; vm_compute; reflexivity).
  destruct Hda as [da Hda], Hdr as [dr Hdr].
  destruct (Ha da Hda) as (_ & Hsa & _), (Hr dr Hdr) as (_ & Hsr & _).
  split.
  - apply (Hsa 204 ""). reflexivity.
  - apply (Hsr 422 "Unprocessable"). reflexivity.
Defined.

(** The claim C2 as written fails: the remote status 204 comes back to the
    webhook sender as 200, and the remote status 422 as 500. *)
Lemma dispatch_status_counterexample :
  let env := mkEnviron None (Some "token") in
  let req := mkRequest "" None (Some labelled_issue) in
  let hmac := fun _ _ : string => "" in
  let accepted := fun _ : dispatch => Reply 204 "" in
  let refused := fun _ : dispatch => Reply 422 "Unprocessable" in
  length (fst (linear_webhook hmac accepted env req [])) = 1%nat
  /\ status_of (snd (linear_webhook hmac accepted env req [])) = Some 200
  /\ length (fst (linear_webhook hmac refused env req [])) = 1%nat
  /\ status_of (snd (linear_webhook hmac refused env req [])) = Some 500.
Proof. repeat apply conj; vm_compute; reflexivity. Qed.

Lemma invalid_signature_iff_witness :
  let env := mkEnviron (Some "secret") (Some "token") in
  let hmac := fun _ _ : string => "0f" in
  let endpoint := fun _ : dispatch => Reply 204 "" in
  status_of (snd (linear_webhook hmac endpoint env
                    (mkRequest "{}" (Some "ff") (Some labelled_issue)) [])) = Some 401
  /\ linear_webhook (fun _ _ => "ff") endpoint env
       (mkRequest "{}" None (Some labelled_issue)) []
     = linear_webhook hmac endpoint env (mkRequest "{}" None (Some labelled_issue)) []
  /\ signature_check hmac (mkEnviron (Some "") (Some "token"))
       (mkRequest "{}" (Some "ff") (Some labelled_issue)) = Ok true.
Proof.
  intros env hmac endpoint. split; [|split].
  - apply (invalid_signature_iff hmac endpoint env
             (mkRequest "{}" (Some "ff") (Some labelled_issue))).
    + intros key body. reflexivity.
    + intros sig [= <-]. reflexivity.
    + exists "secret", "ff". repeat apply conj; reflexivity.
  - destruct (invalid_signature_iff hmac endpoint env
                (mkRequest "{}" None (Some labelled_issue))) as (_ & Hopen).
    + intros key body. reflexivity.
    + intros sig [=].
    + destruct (Hopen (or_introl eq_refl)) as [_ Hsame]. apply Hsame.
  - destruct (invalid_signature_iff hmac endpoint (mkEnviron (Some "") (Some "token"))
                (mkRequest "{}" (Some "ff") (Some labelled_issue))) as (_ & Hopen).
    + intros key body. reflexivity.
    + intros sig [= <-]. reflexivity.
    + destruct (Hopen (or_intror eq_refl)) as [Hcheck _]. exact Hcheck.
Defined.

(** The claim C10 as written fails where the check is skipped by design.
    With a secret configured and a signature header that is present but
    empty, the digest differs from the header and the request is handled
    all the same (answer 200, the endpoint called); so it is with a header
    that differs from the digest when the configured secret is the empty
    string. *)
Lemma invalid_signature_counterexample :
  let hmac := fun _ _ : string => "0f" in
  let endpoint := fun _ : dispatch => Reply 204 "" in
  let empty_header := mkRequest "{}" (Some "") (Some labelled_issue) in
  let wrong_header := mkRequest "{}" (Some "ff") (Some labelled_issue) in
  String.eqb "" (hmac (Py.encode "secret") "{}") = false
  /\ status_of (snd (linear_webhook hmac endpoint
                       (mkEnviron (Some "secret") (Some "token")) empty_header []))
     = Some 200
  /\ length (fst (linear_webhook hmac endpoint
                    (mkEnviron (Some "secret") (Some "token")) empty_header []))
     = 1%nat
  /\ String.eqb "ff" (hmac (Py.encode "") "{}") = false
  /\ status_of (snd (linear_webhook hmac endpoint
                       (mkEnviron (Some "") (Some "token")) wrong_header []))
     = Some 200.
Proof. repeat apply conj; vm_compute; reflexivity. Qed.

End WebhookFacts.

(** * Further properties of the quota file, the filter and the notes *)

Module QuotaMore.
Import Voice QuotaFacts.

Lemma check_today now (fs : vault) text count c :
  fs !! daily_count_file = Some text ->
  Py.split_on "," (Py.strip text) = [Strftime.ymd now; count] ->
  Py.int count = Some c ->
  check_daily_limit now fs = (Ok (c <? DAILY_LIMIT), fs).
Proof.
  intros Hf Hs Hc. unfold check_daily_limit.
  rewrite Hf, Hs, String.eqb_refl, Hc. reflexivity.
Qed.

Lemma check_record now (fs : vault) c :
  fs !! daily_count_file = Some (record now c) ->
  check_daily_limit now fs = (Ok (c <? DAILY_LIMIT), fs).
Proof.
  intros Hf. eapply check_today; [exact Hf | apply PyFacts.record_fields |].
  apply PyFacts.int_str.
Qed.

Lemma check_ok_inv now (fs fs' : vault) b :
  check_daily_limit now fs = (Ok b, fs') ->
  (exists text count c,
      fs' !! daily_count_file = Some text
      /\ Py.split_on "," (Py.strip text) = [Strftime.ymd now; count]
      /\ Py.int count = Some c
      /\ b = (c <? DAILY_LIMIT)
      /\ increment_daily_count now fs'
         = (Ok tt, <[daily_count_file := record now (c + 1)]> fs'))
  /\ check_daily_limit now fs' = (Ok b, fs')
  /\ (forall f, f <> daily_count_file -> fs' !! f = fs !! f).
Proof.
  intros H.
  assert (Hreset : (Ok true, <[daily_count_file := record now 0]> fs) = (Ok b, fs') ->
    (exists text count c,
      fs' !! daily_count_file = Some text
      /\ Py.split_on "," (Py.strip text) = [Strftime.ymd now; count]
      /\ Py.int count = Some c
      /\ b = (c <? DAILY_LIMIT)
      /\ increment_daily_count now fs'
         = (Ok tt, <[daily_count_file := record now (c + 1)]> fs'))
    /\ check_daily_limit now fs' = (Ok b, fs')
    /\ (forall f, f <> daily_count_file -> fs' !! f = fs !! f)).
  { intros [= <- <-].
    assert (Hl : <[daily_count_file := record now 0]> fs !! daily_count_file
                 = Some (record now 0)) by apply lookup_insert_eq.
    split; [|split].
    - exists (record now 0), (Py.str 0), 0.
      split; [exact Hl|]. split; [apply PyFacts.record_fields|].
      split; [apply PyFacts.int_str|]. split; [reflexivity|].
      apply increment_record, Hl.
    - apply (check_record now _ 0 Hl).
    - intros f Hne. apply lookup_insert_ne. congruence. }
  revert H. unfold check_daily_limit.
  destruct (fs !! daily_count_file) as [text|] eqn:Hf; [|exact Hreset].
  destruct (Py.split_on "," (Py.strip text)) as [|date [|count [|? ?]]] eqn:Hs;
    try exact Hreset.
  destruct (String.eqb date (Strftime.ymd now)) eqn:Hd; [|exact Hreset].
  apply String.eqb_eq in Hd. subst date.
  destruct (Py.int count) as [c|] eqn:Hc; [|discriminate].
  intros [= <- <-]. split; [|split].
  - exists text, count, c. repeat (split; [done|]).
    eapply increment_same_day; eassumption.
  - eapply check_today; eassumption.
  - reflexivity.
Qed.

(** X1.  Whenever [check_daily_limit] returns, the quota file it leaves
    holds a record dated today: its count [c] is the one the verdict
    [c < 100] was taken from, a second check changes nothing, the next
    increment stores [c + 1], and no other file has changed. *)
Theorem check_daily_limit_post now (fs fs' : vault) b :
  check_daily_limit now fs = (Ok b, fs') ->
  (exists text count c,
      fs' !! daily_count_file = Some text
      /\ Py.split_on "," (Py.strip text) = [Strftime.ymd now; count]
      /\ Py.int count = Some c
      /\ b = (c <? DAILY_LIMIT)
      /\ increment_daily_count now fs'
         = (Ok tt, <[daily_count_file := record now (c + 1)]> fs'))
  /\ check_daily_limit now fs' = (Ok b, fs')
  /\ (forall f, f <> daily_count_file -> fs' !! f = fs !! f).
Proof. apply check_ok_inv. Qed.

Lemma check_daily_limit_post_witness :
  let now := mkDatetime 2024 1 2 9 30 in
  let fs : vault := {[ daily_count_file := "2024-01-01,57";
                       "2024-01-01.md" := "# January 01, 2024" ]} in
  let fs' : vault := <[daily_count_file := "2024-01-02,0"]> fs in
  check_daily_limit now fs' = (Ok true, fs')
  /\ fs' !! "2024-01-01.md" = Some "# January 01, 2024".
Proof.
  intros now fs fs'.
  destruct (check_daily_limit_post now fs fs' true) as (_ & Hagain & Hframe).
  - vm_compute. reflexivity.
  - split; [exact Hagain|]. rewrite Hframe by discriminate. reflexivity.
Defined.

Lemma increment_times_absent now (fs : vault) (n : nat) :
  fs !! daily_count_file = None ->
  increment_times (S n) now fs
  = (Ok tt, <[daily_count_file := record now (Z.of_nat (S n))]> fs).
Proof.
  intros Hf. cbn [increment_times]. rewrite (increment_absent _ _ Hf).
  rewrite (increment_times_record n now _ 1) by apply lookup_insert_eq.
  rewrite insert_insert_eq. do 3 f_equal. lia.
Qed.

(** X2.  Starting a day with no quota file, after [n+1] increments the
    limit check answers whether [n+1 < 100] and leaves the vault as it is:
    the check passes after 99 notes and fails from the 100th on. *)
Theorem check_after_increments now (fs : vault) (n : nat) :
  fs !! daily_count_file = None ->
  check_daily_limit now (snd (increment_times (S n) now fs))
  = (Ok (S n <? 100)%nat, snd (increment_times (S n) now fs)).
Proof.
  intros Hf.
  rewrite (increment_times_absent now fs n Hf). cbn [snd].
  rewrite (check_record now _ (Z.of_nat (S n))) by apply lookup_insert_eq.
  do 2 f_equal. unfold DAILY_LIMIT.
  destruct (Nat.ltb_spec (S n) 100), (Z.ltb_spec (Z.of_nat (S n)) 100); (reflexivity || lia).
Qed.

Lemma check_after_increments_witness :
  let now := mkDatetime 2024 1 2 9 30 in
  fst (check_daily_limit now (snd (increment_times 99 now ∅))) = Ok true
  /\ fst (check_daily_limit now (snd (increment_times 100 now ∅))) = Ok false.
Proof.
  intros now. split.
  - rewrite (check_after_increments now (∅ : vault) 98 (lookup_empty _)). reflexivity.
  - rewrite (check_after_increments now (∅ : vault) 99 (lookup_empty _)). reflexivity.
Defined.

End QuotaMore.

Module FilterMore.
Import Voice Shapes.

(** Words need separators: [k] words take at least [2k - 1] characters. *)
Lemma word_bound t :
  (2 * length (Py.split_ws t) <= S (String.length t))%nat
  /\ (lead t = true -> 2 * length (Py.split_ws t) <= String.length t)%nat.
Proof.
  induction t as [|c r [IHa IHb]]; [simpl; lia|].
  cbn [Py.split_ws lead String.length].
  destruct (Py.isspace c) eqn:Hc.
  - split; [lia|]. intros _. lia.
  - split; [|discriminate].
    destruct r as [|c' r']; [simpl; lia|].
    destruct (Py.isspace c') eqn:Hc'.
    + cbn [length]. specialize (IHb Hc'). lia.
    + destruct (Py.split_ws (String c' r')) as [|w ws]; cbn [length] in *;
        cbn [String.length] in *; lia.
Qed.

(** X3.  Five words cannot fit in fewer than nine characters, so the
    length test of the filter only ever decides for texts of exactly nine
    characters: a text is rejected iff it has fewer than five words or is
    nine characters long. *)
Theorem is_valid_transcription_nine (t : string) :
  fst (is_valid_transcription t) = false
  <-> (length (Py.split_ws t) < 5)%nat \/ String.length t = 9%nat.
Proof.
  rewrite FilterFacts.is_valid_transcription_eq. unfold MIN_WORDS.
  destruct (word_bound t) as [Hb _].
  destruct (Nat.ltb_spec (String.length t) 10) as [Hl|Hl];
  destruct (Nat.ltb_spec (length (Py.split_ws t)) 5) as [Hw|Hw]; cbn [orb fst];
    (split; [intros; lia | intros [?|?]; (reflexivity || lia)]).
Qed.

End FilterMore.

Module NoteMore.
Import Voice Loop NoteFacts.

Lemma app_nil_r s : s +:+ "" = s.
Proof. induction s as [|c s IH]; [reflexivity|]. rewrite PyFacts.app_cons, IH. reflexivity. Qed.

Lemma note_file_not_count now : note_file now <> daily_count_file.
Proof.
  unfold note_file. pose proof (PyFacts.ymd_datechars now) as H.
  destruct (Strftime.ymd now) as [|c r]; [discriminate|].
  rewrite PyFacts.app_cons. intros [= -> _]. discriminate H.
Qed.

Lemma save_other n t h note (fs : vault) f :
  f <> note_file n -> save_to_obsidian n t h note fs !! f = fs !! f.
Proof.
  intros Hne. unfold save_to_obsidian. fold (note_file n).
  destruct (fs !! note_file n); apply lookup_insert_ne; congruence.
Qed.

Lemma save_note_file n t h note (fs : vault) :
  exists before,
    save_to_obsidian n t h note fs !! note_file n
    = Some (before +:+ note_section t note)
    /\ (forall old, fs !! note_file n = Some old -> before = old).
Proof.
  destruct (fs !! note_file n) as [old|] eqn:Hf.
  - exists old. rewrite (save_append _ _ _ _ _ _ Hf), lookup_insert_eq.
    split; [reflexivity|]. intros ? [= <-]. reflexivity.
  - exists ("# " +:+ Strftime.bdy h). rewrite (save_new _ _ _ _ _ Hf), lookup_insert_eq.
    split; [|discriminate]. rewrite PyFacts.app_assoc. reflexivity.
Qed.

Lemma save_keeps_prefix n t h note (fs : vault) f old :
  fs !! f = Some old ->
  exists suffix, save_to_obsidian n t h note fs !! f = Some (old +:+ suffix).
Proof.
  intros Hf. destruct (decide (f = note_file n)) as [->|Hne].
  - exists (note_section t note).
    rewrite (save_append _ _ _ _ _ _ Hf). apply lookup_insert_eq.
  - exists "". rewrite save_other, app_nil_r by exact Hne. exact Hf.
Qed.

(** X4.  The daily notes are append-only: through any run of saves, on
    any dates, the text a file held at the start is still the beginning of
    what it holds at the end. *)
Theorem save_all_append_only calls (fs : vault) f old :
  fs !! f = Some old ->
  exists suffix, save_all calls fs !! f = Some (old +:+ suffix).
Proof.
  revert fs old. induction calls as [|[[[n t] h] note] rest IH]; intros fs old Hf.
  - exists "". rewrite app_nil_r. exact Hf.
  - destruct (save_keeps_prefix n t h note fs f old Hf) as [s1 H1].
    destruct (IH _ _ H1) as [s2 H2].
    exists (s1 +:+ s2). cbn [save_all]. rewrite H2, PyFacts.app_assoc. reflexivity.
Qed.

Lemma save_all_append_only_witness :
  let d1 := mkDatetime 2024 3 7 9 5 in
  let d2 := mkDatetime 2024 3 8 10 0 in
  let fs : vault := {[ "2024-03-07.md" := "# My own heading" ]} in
  exists suffix,
    save_all [(d1, d1, d1, "A"); (d2, d2, d2, "B"); (d1, d1, d1, "C")] fs
      !! "2024-03-07.md" = Some ("# My own heading" +:+ suffix).
Proof.
  intros d1 d2 fs.
  apply (save_all_append_only _ fs "2024-03-07.md" "# My own heading").
  reflexivity.
Defined.

End NoteMore.

(** * The polling loop *)

Module LoopFacts.
Import Voice Loop.

Lemma slice_to_length n s : (String.length (slice_to n s) <= n)%nat.
Proof.
  revert s. induction n as [|n IH]; intros [|c r]; simpl; try lia.
  specialize (IH r). lia.
Qed.

Lemma slice_to_prefix n s : exists rest, s = slice_to n s +:+ rest.
Proof.
  revert s. induction n as [|n IH]; intros [|c r]; simpl.
  - exists "". reflexivity.
  - exists (String c r). reflexivity.
  - exists "". reflexivity.
  - destruct (IH r) as [rest E]. exists rest.
    rewrite PyFacts.app_cons, <- E. reflexivity.
Qed.

Lemma check_frame now (fs : vault) f :
  f <> daily_count_file -> snd (check_daily_limit now fs) !! f = fs !! f.
Proof.
  intros Hne. unfold check_daily_limit.
  repeat case_match; simpl; try reflexivity; apply lookup_insert_ne; congruence.
Qed.

Lemma increment_frame now (fs : vault) f :
  f <> daily_count_file -> snd (increment_daily_count now fs) !! f = fs !! f.
Proof.
  intros Hne. unfold increment_daily_count.
  repeat case_match; simpl; try reflexivity; apply lookup_insert_ne; congruence.
Qed.

Lemma loop_eta st : mkLoop (last_clipboard_content st) (notes st) = st.
Proof. destruct st; reflexivity. Qed.

Lemma slice_to_length_eq n s :
  String.length (slice_to n s) = Nat.min n (String.length s).
Proof.
  revert s. induction n as [|n IH]; intros [|c r]; simpl; try reflexivity.
  rewrite IH. reflexivity.
Qed.

(** X5.  The formatter is only ever given the first [MAX_CHARS]
    characters of the clipboard text.  The text it is given begins the
    clipboard text and has the length of that text cut at 5000, and a turn
    depends on the formatter through its answer on that one text only: two
    formatters that agree there, and so any two that agree on every text of
    at most 5000 characters, give the same turn. *)
Theorem turn_formatter_input (f g : string -> option string) clock pbpaste st :
  let clipboard := get_clipboard pbpaste in
  let sent := slice_to MAX_CHARS clipboard in
  (exists rest, clipboard = sent +:+ rest)
  /\ String.length sent = Nat.min MAX_CHARS (String.length clipboard)
  /\ (f sent = g sent -> turn f clock pbpaste st = turn g clock pbpaste st)
  /\ ((forall s, (String.length s <= MAX_CHARS)%nat -> f s = g s) ->
       turn f clock pbpaste st = turn g clock pbpaste st).
Proof.
  intros clipboard sent.
  assert (Hone : f sent = g sent -> turn f clock pbpaste st = turn g clock pbpaste st).
  { intros Hfg. unfold turn. fold clipboard. fold sent. rewrite Hfg. reflexivity. }
  split; [apply slice_to_prefix|]. split; [apply slice_to_length_eq|].
  split; [exact Hone|].
  intros Hall. apply Hone, Hall, slice_to_length.
Qed.

Lemma turn_formatter_input_witness :
  let now := mkDatetime 2024 3 7 9 5 in
  let clock := mkReadings now now now now now in
  let f := fun s : string => Some ("## " +:+ s) in
  let g := fun s : string =>
             if (String.length s <=? MAX_CHARS)%nat then Some ("## " +:+ s) else None in
  let h := fun s : string =>
             if String.eqb s "one two three four five" then Some ("## " +:+ s)
             else Some "something else" in
  turn f clock (Some " one two three four five ") (mkLoop "" ∅)
  = turn g clock (Some " one two three four five ") (mkLoop "" ∅)
  /\ turn f clock (Some " one two three four five ") (mkLoop "" ∅)
     = turn h clock (Some " one two three four five ") (mkLoop "" ∅)
  /\ String.length (slice_to MAX_CHARS ("a b c d " +:+ Strftime.zeros 5000)) = 5000%nat.
Proof.
  intros now clock f g h. split; [|split].
  - destruct (turn_formatter_input f g clock (Some " one two three four five ")
                (mkLoop "" ∅)) as (_ & _ & _ & Hall).
    apply Hall. intros s Hs. unfold g. apply Nat.leb_le in Hs. rewrite Hs. reflexivity.
  - destruct (turn_formatter_input f h clock (Some " one two three four five ")
                (mkLoop "" ∅)) as (_ & _ & Hone & _).
    apply Hone. vm_compute. reflexivity.
  - destruct (turn_formatter_input f g clock (Some ("a b c d " +:+ Strftime.zeros 5000))
                (mkLoop "" ∅)) as (_ & Hlen & _).
    change (get_clipboard (Some ("a b c d " +:+ Strftime.zeros 5000)))
      with (Py.strip ("a b c d " +:+ Strftime.zeros 5000)) in Hlen.
    assert (E : Py.strip ("a b c d " +:+ Strftime.zeros 5000)
                = "a b c d " +:+ Strftime.zeros 5000) by (vm_compute; reflexivity).
    rewrite E in Hlen. rewrite Hlen. vm_compute. reflexivity.
Defined.

(** X6.  When the day's record has reached the limit, a new valid
    transcription is neither formatted nor marked as seen: the turn sleeps
    an hour and leaves the whole state as it was, so the same text is still
    pending at the next turn. *)
Theorem turn_limit_reached f clock pbpaste st text count c :
  get_clipboard pbpaste <> last_clipboard_content st ->
  fst (is_valid_transcription (get_clipboard pbpaste)) = true ->
  notes st !! daily_count_file = Some text ->
  Py.split_on "," (Py.strip text) = [Strftime.ymd (at_check clock); count] ->
  Py.int count = Some c ->
  DAILY_LIMIT <= c ->
  turn f clock pbpaste st = (Ok 3600, st).
Proof.
  intros Hnew Hvalid Hf Hs Hc Hlim. unfold turn.
  apply String.eqb_neq in Hnew. rewrite Hnew, Hvalid. cbn [negb].
  rewrite (QuotaMore.check_today _ _ _ _ _ Hf Hs Hc).
  assert ((c <? DAILY_LIMIT) = false) as -> by (apply Z.ltb_ge; exact Hlim).
  rewrite loop_eta. reflexivity.
Qed.

Lemma turn_limit_reached_witness :
  let now := mkDatetime 2024 3 7 9 5 in
  let clock := mkReadings now now now now now in
  let st := mkLoop "old text" {[ daily_count_file := "2024-03-07,100" ]} in
  turn (fun _ => Some "note") clock (Some "one two three four five") st = (Ok 3600, st).
Proof.
  intros now clock st.
  apply (turn_limit_reached _ clock _ st "2024-03-07,100" "100" 100);
    vm_compute; (reflexivity || discriminate).
Defined.

(** X7.  A turn that formats a new valid transcription, the limit check
    having passed and the clock staying on one day between the check and
    the increment, sleeps two seconds, marks the text as seen, stores the
    count the check saw plus one, and ends the day's note with the
    time-stamped section of the formatted text, what the note held before
    kept in front; every other file is untouched. *)
Theorem turn_success f clock pbpaste st fs1 note :
  get_clipboard pbpaste <> last_clipboard_content st ->
  fst (is_valid_transcription (get_clipboard pbpaste)) = true ->
  check_daily_limit (at_check clock) (notes st) = (Ok true, fs1) ->
  f (slice_to MAX_CHARS (get_clipboard pbpaste)) = Some note ->
  Py.truthy note = true ->
  Strftime.ymd (at_check clock) = Strftime.ymd (at_count clock) ->
  exists c st',
    turn f clock pbpaste st = (Ok CHECK_INTERVAL, st')
    /\ last_clipboard_content st' = get_clipboard pbpaste
    /\ c < DAILY_LIMIT
    /\ (exists text count, fs1 !! daily_count_file = Some text
          /\ Py.split_on "," (Py.strip text) = [Strftime.ymd (at_check clock); count]
          /\ Py.int count = Some c)
    /\ notes st' !! daily_count_file = Some (record (at_count clock) (c + 1))
    /\ (exists before,
          notes st' !! note_file (at_name clock)
          = Some (before +:+ note_section (at_time clock) note)
          /\ forall old, notes st !! note_file (at_name clock) = Some old -> before = old)
    /\ (forall p, p <> daily_count_file -> p <> note_file (at_name clock) ->
          notes st' !! p = notes st !! p).
Proof.
  intros Hnew Hvalid Hcheck Hfmt Htruthy Hday.
  destruct (QuotaMore.check_ok_inv _ _ _ _ Hcheck)
    as ((text & count & c & Hf1 & Hs & Hc & Hb & _) & _ & Hframe).
  set (fs2 := save_to_obsidian (at_name clock) (at_time clock) (at_head clock) note fs1).
  assert (Hf2 : fs2 !! daily_count_file = Some text).
  { unfold fs2. rewrite NoteMore.save_other; [exact Hf1|].
    intros E. exact (NoteMore.note_file_not_count _ (eq_sym E)). }
  assert (Hinc : increment_daily_count (at_count clock) fs2
                 = (Ok tt, <[daily_count_file := record (at_count clock) (c + 1)]> fs2)).
  { eapply QuotaFacts.increment_same_day; [exact Hf2 | rewrite <- Hday; exact Hs | exact Hc]. }
  exists c, (mkLoop (get_clipboard pbpaste)
               (<[daily_count_file := record (at_count clock) (c + 1)]> fs2)).
  split; [|split; [|split; [|split; [|split; [|split]]]]].
  - unfold turn. apply String.eqb_neq in Hnew. rewrite Hnew, Hvalid. cbn [negb].
    rewrite Hcheck, Hfmt, Htruthy. fold fs2. rewrite Hinc. reflexivity.
  - reflexivity.
  - symmetry in Hb. apply Z.ltb_lt in Hb. exact Hb.
  - exists text, count. auto.
  - cbn [notes]. apply lookup_insert_eq.
  - destruct (NoteMore.save_note_file (at_name clock) (at_time clock) (at_head clock)
                note fs1) as [before [Hb1 Hb2]].
    exists before. cbn [notes]. split.
    + rewrite lookup_insert_ne by (apply not_eq_sym, NoteMore.note_file_not_count).
      exact Hb1.
    + intros old Hold. apply Hb2. rewrite Hframe by apply NoteMore.note_file_not_count.
      exact Hold.
  - intros p Hp1 Hp2. cbn [notes]. rewrite lookup_insert_ne by congruence.
    unfold fs2. rewrite NoteMore.save_other by exact Hp2. apply Hframe, Hp1.
Qed.

Lemma turn_success_witness :
  let now := mkDatetime 2024 3 7 9 5 in
  let clock := mkReadings now now now now now in
  let st := mkLoop "" {[ daily_count_file := "2024-03-07,41" ]} in
  exists st',
    turn (fun s => Some ("# " +:+ s)) clock (Some "one two three four five") st
    = (Ok 2, st')
    /\ notes st' !! daily_count_file = Some "2024-03-07,42".
Proof.
  intros now clock st.
  destruct (turn_success (fun s => Some ("# " +:+ s)) clock
              (Some "one two three four five") st (notes st)
              "# one two three four five")
    as (c & st' & Hturn & _ & _ & (text & count & Hf & Hs & Hc) & Hcount & _);
    try (vm_compute; (reflexivity || discriminate)).
  exists st'. split; [exact Hturn|].
  vm_compute in Hf. injection Hf as <-. vm_compute in Hs. injection Hs as <-.
  vm_compute in Hc. injection Hc as <-. rewrite Hcount. vm_compute. reflexivity.
Defined.

(** X8.  When the formatter fails or returns an empty text, no note is
    written and the count is not incremented: the vault is the one the
    limit check left, which differs from the old one in the quota file at
    most.  The text is marked as seen all the same, so as long as the
    clipboard holds it no later turn formats it again. *)
Theorem turn_format_failed f clock pbpaste st fs1 :
  get_clipboard pbpaste <> last_clipboard_content st ->
  fst (is_valid_transcription (get_clipboard pbpaste)) = true ->
  check_daily_limit (at_check clock) (notes st) = (Ok true, fs1) ->
  f (slice_to MAX_CHARS (get_clipboard pbpaste)) = None
    \/ f (slice_to MAX_CHARS (get_clipboard pbpaste)) = Some "" ->
  turn f clock pbpaste st = (Ok CHECK_INTERVAL, mkLoop (get_clipboard pbpaste) fs1)
  /\ (forall p, p <> daily_count_file -> fs1 !! p = notes st !! p)
  /\ (forall g clock',
        turn g clock' pbpaste (mkLoop (get_clipboard pbpaste) fs1)
        = (Ok CHECK_INTERVAL, mkLoop (get_clipboard pbpaste) fs1)).
Proof.
  intros Hnew Hvalid Hcheck Hfail. split; [|split].
  - unfold turn. apply String.eqb_neq in Hnew. rewrite Hnew, Hvalid. cbn [negb].
    rewrite Hcheck. destruct Hfail as [-> | ->]; reflexivity.
  - intros p Hp. rewrite <- (check_frame (at_check clock) (notes st) p Hp), Hcheck.
    reflexivity.
  - intros g clock'. unfold turn. cbn [last_clipboard_content].
    rewrite String.eqb_refl. reflexivity.
Qed.

Lemma turn_format_failed_witness :
  let now := mkDatetime 2024 3 7 9 5 in
  let clock := mkReadings now now now now now in
  let st := mkLoop "" {[ daily_count_file := "2024-03-07,41" ]} in
  turn (fun _ => None) clock (Some "one two three four five") st
  = (Ok 2, mkLoop "one two three four five" {[ daily_count_file := "2024-03-07,41" ]}).
Proof.
  intros now clock st.
  apply (turn_format_failed (fun _ => None) clock (Some "one two three four five") st
           {[ daily_count_file := "2024-03-07,41" ]}).
  - vm_compute. discriminate.
  - vm_compute. reflexivity.
  - vm_compute. reflexivity.
  - left. reflexivity.
Defined.

(** X9.  Whatever the clipboard, the formatter and the clock, and on
    every path including the ones that end in an exception, a turn changes
    no file but the quota file and the note of the day it read for the
    file name, and what that note held before stays at its beginning. *)
Theorem turn_frame f clock pbpaste st :
  (forall p, p <> daily_count_file -> p <> note_file (at_name clock) ->
     notes (snd (turn f clock pbpaste st)) !! p = notes st !! p)
  /\ (forall old, notes st !! note_file (at_name clock) = Some old ->
       exists suffix,
         notes (snd (turn f clock pbpaste st)) !! note_file (at_name clock)
         = Some (old +:+ suffix)).
Proof.
  assert (Hnc := NoteMore.note_file_not_count (at_name clock)).
  assert (Hsame : forall old, notes st !! note_file (at_name clock) = Some old ->
            exists suffix, notes st !! note_file (at_name clock) = Some (old +:+ suffix)).
  { intros old H. exists "". rewrite NoteMore.app_nil_r. exact H. }
  assert (Hchk : forall old, notes st !! note_file (at_name clock) = Some old ->
            exists suffix,
              snd (check_daily_limit (at_check clock) (notes st))
                !! note_file (at_name clock) = Some (old +:+ suffix)).
  { intros old H. exists "". rewrite NoteMore.app_nil_r, check_frame by exact Hnc.
    exact H. }
  unfold turn.
  destruct (negb _); [|split; [reflexivity | exact Hsame]].
  destruct (fst _); [|split; [reflexivity | exact Hsame]].
  destruct (check_daily_limit (at_check clock) (notes st)) as [[[|]|e] fs1] eqn:Hc;
    cbn [snd] in Hchk;
    try (split; [intros p Hp _; cbn [snd notes];
                 rewrite <- (check_frame (at_check clock) (notes st) p Hp), Hc;
                 reflexivity
                | exact Hchk]).
  assert (Hfr : forall p, p <> daily_count_file -> fs1 !! p = notes st !! p).
  { intros p Hp. rewrite <- (check_frame (at_check clock) (notes st) p Hp), Hc.
    reflexivity. }
  destruct (f _) as [note|]; [|split; [intros p Hp _; apply Hfr, Hp | exact Hchk]].
  destruct (Py.truthy note); [|split; [intros p Hp _; apply Hfr, Hp | exact Hchk]].
  set (fs2 := save_to_obsidian (at_name clock) (at_time clock) (at_head clock) note fs1).
  assert (Hfin : forall p, p <> daily_count_file ->
            notes (snd (match increment_daily_count (at_count clock) fs2 with
                        | (Ok _, fs3) =>
                            (Ok CHECK_INTERVAL, mkLoop (get_clipboard pbpaste) fs3)
                        | (Raise e, fs3) =>
                            (Raise e, mkLoop (last_clipboard_content st) fs3)
                        end)) !! p = fs2 !! p).
  { intros p Hp. rewrite <- (increment_frame (at_count clock) fs2 p Hp).
    destruct (increment_daily_count (at_count clock) fs2) as [[?|?] ?]; reflexivity. }
  split.
  - intros p Hp1 Hp2. rewrite (Hfin p Hp1). unfold fs2.
    rewrite NoteMore.save_other by exact Hp2. apply Hfr, Hp1.
  - intros old Hold. rewrite (Hfin _ Hnc).
    apply NoteMore.save_keeps_prefix. rewrite Hfr by exact Hnc. exact Hold.
Qed.

(** X10.  A quota file dated today whose count is not an integer is never
    repaired: the limit check and the increment both raise [ValueError] and
    leave the vault as it is, and the next new valid transcription ends the
    loop with that exception before anything is formatted or marked as
    seen. *)
Theorem turn_corrupt_count f clock pbpaste st text count :
  get_clipboard pbpaste <> last_clipboard_content st ->
  fst (is_valid_transcription (get_clipboard pbpaste)) = true ->
  notes st !! daily_count_file = Some text ->
  Py.split_on "," (Py.strip text) = [Strftime.ymd (at_check clock); count] ->
  Py.int count = None ->
  check_daily_limit (at_check clock) (notes st) = (Raise ValueError, notes st)
  /\ increment_daily_count (at_check clock) (notes st) = (Raise ValueError, notes st)
  /\ turn f clock pbpaste st = (Raise ValueError, st).
Proof.
  intros Hnew Hvalid Hf Hs Hc.
  assert (Hchk : check_daily_limit (at_check clock) (notes st)
                 = (Raise ValueError, notes st)).
  { unfold check_daily_limit. rewrite Hf, Hs, String.eqb_refl, Hc. reflexivity. }
  split; [exact Hchk|]. split.
  - unfold increment_daily_count. rewrite Hf, Hs, String.eqb_refl, Hc. reflexivity.
  - unfold turn. apply String.eqb_neq in Hnew. rewrite Hnew, Hvalid. cbn [negb].
    rewrite Hchk, loop_eta. reflexivity.
Qed.

Lemma turn_corrupt_count_witness :
  let now := mkDatetime 2024 3 7 9 5 in
  let clock := mkReadings now now now now now in
  let st := mkLoop "" {[ daily_count_file := "2024-03-07,4x" ]} in
  turn (fun _ => Some "note") clock (Some "one two three four five") st
  = (Raise ValueError, st).
Proof.
  intros now clock st.
  apply (turn_corrupt_count _ clock _ st "2024-03-07,4x" "4x");
    vm_compute; (reflexivity || discriminate).
Defined.

(** X24.  A clipboard read that fails, or a blank clipboard, makes the
    loop forget the text it had seen: the turn stores the empty string as
    the last content and touches no file, so the text seen before counts
    as new when the clipboard shows it again. *)
Theorem turn_forgets_on_empty_read f clock pbpaste st :
  get_clipboard pbpaste = "" ->
  last_clipboard_content st <> "" ->
  turn f clock pbpaste st = (Ok CHECK_INTERVAL, mkLoop "" (notes st))
  /\ (forall again, get_clipboard again = last_clipboard_content st ->
        get_clipboard again
        <> last_clipboard_content (snd (turn f clock pbpaste st))).
Proof.
  intros Hempty Hlast.
  assert (Hturn : turn f clock pbpaste st = (Ok CHECK_INTERVAL, mkLoop "" (notes st))).
  { unfold turn. rewrite Hempty.
    assert (String.eqb "" (last_clipboard_content st) = false) as ->
      by (apply String.eqb_neq; congruence).
    reflexivity. }
  split; [exact Hturn|]. intros again Hagain. rewrite Hturn, Hagain. exact Hlast.
Qed.

Lemma turn_forgets_on_empty_read_witness :
  let now := mkDatetime 2024 3 7 9 5 in
  let clock := mkReadings now now now now now in
  let st := mkLoop "one two three four five" {[ "2024-03-07.md" := "# March 07, 2024" ]} in
  turn (fun _ => Some "note") clock None st
  = (Ok 2, mkLoop "" {[ "2024-03-07.md" := "# March 07, 2024" ]}).
Proof.
  intros now clock st.
  apply (turn_forgets_on_empty_read (fun _ => Some "note") clock None st).
  - reflexivity.
  - discriminate.
Defined.

End LoopFacts.

(** * Further properties of the parser *)

Module ParserMore.
Import Parser ParserFacts Shapes.

(** Splitting and joining lines. *)

Lemma split_on_cons sep s : exists w ws, Py.split_on sep s = w :: ws.
Proof.
  induction s as [|c r (w & ws & IH)]; simpl; [eauto|].
  destruct (Ascii.eqb c sep); [eauto|]. rewrite IH. eauto.
Qed.

Lemma split_on_sep_app sep a b :
  Py.split_on sep (a +:+ String sep b) = Py.split_on sep a ++ Py.split_on sep b.
Proof.
  induction a as [|c a IH].
  - rewrite PyFacts.app_nil_l. simpl. rewrite Ascii.eqb_refl. reflexivity.
  - rewrite PyFacts.app_cons. simpl. destruct (Ascii.eqb c sep).
    + rewrite IH. reflexivity.
    + rewrite IH. destruct (split_on_cons sep a) as (w & ws & ->). reflexivity.
Qed.

Lemma join_cons sep w x l :
  Py.join sep (w :: x :: l) = w +:+ sep +:+ Py.join sep (x :: l).
Proof. reflexivity. Qed.

Lemma join_split_on sep s :
  Py.join (String sep "") (Py.split_on sep s) = s.
Proof.
  induction s as [|c r IH]; [reflexivity|]. simpl.
  destruct (Ascii.eqb_spec c sep) as [->|Hne].
  - destruct (split_on_cons sep r) as (w & ws & E). rewrite E in *.
    rewrite join_cons, IH. reflexivity.
  - destruct (split_on_cons sep r) as (w & ws & E). rewrite E in *.
    destruct ws as [|x ws].
    + simpl in *. subst. reflexivity.
    + rewrite join_cons in *. rewrite PyFacts.app_cons, IH. reflexivity.
Qed.

Lemma lines_of_one line :
  Py.all_chars (Py.isnt "010") line = true -> lines_of line = [line].
Proof. apply PyFacts.split_on_whole. Qed.

Lemma lines_of_app a b :
  lines_of (a +:+ Py.nl +:+ b) = lines_of a ++ lines_of b.
Proof. apply split_on_sep_app. Qed.

(** Scans that commit nothing. *)

Lemma step_no_stop st line :
  Py.startswith line STOP = false -> files (step st line) = files st.
Proof.
  intros He. unfold step. rewrite He.
  destruct (Py.startswith line START); [reflexivity|].
  destruct (in_file st); reflexivity.
Qed.

Lemma run_no_stop lines : forall st,
  forallb (fun l => negb (Py.startswith l STOP)) lines = true ->
  files (run st lines) = files st.
Proof.
  induction lines as [|l ls IH]; intros st Hall; [reflexivity|].
  simpl in Hall. apply andb_true_iff in Hall as [Hl Hls].
  apply negb_true_iff in Hl.
  change (run st (l :: ls)) with (run (step st l) ls).
  rewrite IH by exact Hls. apply step_no_stop, Hl.
Qed.

(** X11.  A response with no end marker line commits no file, start
    markers or not: the whole stripped response, marker lines included,
    becomes the default target, or nothing at all when the response is blank. *)
Theorem parse_no_end_marker (r : string) :
  forallb (fun l => negb (Py.startswith l STOP)) (lines_of r) = true ->
  parse_claude_response r
  = if Py.truthy (Py.strip r) then {[ default_target := Py.strip r ]} else ∅.
Proof.
  intros Hall. apply parse_empty. rewrite run_no_stop by exact Hall. reflexivity.
Qed.

Lemma parse_no_end_marker_witness :
  let r := "=== FILE: a.txt" +:+ Py.nl +:+ "HELLO" in
  parse_claude_response r = {[ default_target := r ]}.
Proof.
  intros r. rewrite (parse_no_end_marker r) by (vm_compute; reflexivity).
  vm_compute. reflexivity.
Defined.

(** Where the names come from. *)

Lemma run_names all lines : forall st,
  (forall l, In l lines -> In l all) ->
  (forall f c, files st !! f = Some c -> named_in all f) ->
  (forall f, current_file st = Some f ->
     exists line, In line all /\ is_start line = true /\ name_of line = f) ->
  forall f c, files (run st lines) !! f = Some c -> named_in all f.
Proof.
  induction lines as [|l ls IH]; intros st Hin Hfiles Hcur; [exact Hfiles|].
  change (run st (l :: ls)) with (run (step st l) ls).
  apply IH.
  - intros l' Hl'. apply Hin. right. exact Hl'.
  - unfold step. destruct (Py.startswith l START) eqn:Hs; [exact Hfiles|].
    destruct (Py.startswith l STOP).
    + destruct (current_file st) as [g|] eqn:Hg; [|exact Hfiles].
      destruct (Py.truthy g) eqn:Ht; [|exact Hfiles].
      cbn [files]. intros f c Hf.
      destruct (decide (g = f)) as [<-|Hne].
      * split; [exact Ht | apply Hcur; reflexivity].
      * rewrite lookup_insert_ne in Hf by exact Hne. eapply Hfiles, Hf.
    + destruct (in_file st); exact Hfiles.
  - unfold step. destruct (Py.startswith l START) eqn:Hs.
    + cbn [current_file]. intros f [= <-]. exists l.
      split; [apply Hin; left; reflexivity|]. split; [exact Hs | reflexivity].
    + destruct (Py.startswith l STOP).
      * destruct (current_file st) as [g|] eqn:Hg; [|cbn; discriminate].
        destruct (Py.truthy g); cbn [current_file]; [discriminate|].
        exact Hcur.
      * destruct (in_file st); exact Hcur.
Qed.

(** X12.  The parser invents no file name: every key of its result is
    either the default target or the name taken from a start marker line
    of the response, and no key is the empty string. *)
Theorem parse_keys (r f c : string) :
  parse_claude_response r !! f = Some c ->
  Py.truthy f = true
  /\ (f = default_target
      \/ exists line, In line (lines_of r) /\ is_start line = true /\ name_of line = f).
Proof.
  assert (Hrun : forall f c, files (run scan0 (lines_of r)) !! f = Some c ->
            named_in (lines_of r) f).
  { apply run_names; [auto | | discriminate].
    intros g d Hg. simpl in Hg. rewrite lookup_empty in Hg. discriminate. }
  unfold parse_claude_response. destruct (bool_decide _ && _).
  - intros Hf. destruct (decide (default_target = f)) as [<-|Hne].
    + split; [reflexivity | left; reflexivity].
    + rewrite lookup_insert_ne in Hf by exact Hne.
      destruct (Hrun _ _ Hf) as [Ht Hl]. split; [exact Ht | right; exact Hl].
  - intros Hf. destruct (Hrun _ _ Hf) as [Ht Hl]. split; [exact Ht | right; exact Hl].
Qed.

Lemma parse_keys_witness :
  let r := "=== FILE: src/a.txt" +:+ Py.nl +:+ "HELLO" +:+ Py.nl +:+ "=== END FILE ===" in
  Py.truthy "src/a.txt" = true
  /\ ("src/a.txt" = default_target
      \/ exists line, In line (lines_of r) /\ is_start line = true
                      /\ name_of line = "src/a.txt").
Proof.
  intros r. apply (parse_keys r "src/a.txt" "HELLO"). vm_compute. reflexivity.
Defined.

(** X13.  A start marker met while a block is still open abandons that
    block: the scan ends in the same state as on the response without the
    abandoned start line and the lines buffered after it, and when some
    file is committed the two parses are equal. *)
Theorem parse_abandoned_block (r r' : string) pre s1 b1 s2 post :
  lines_of r = pre ++ s1 :: b1 ++ s2 :: post ->
  lines_of r' = pre ++ s2 :: post ->
  is_start s1 = true -> forallb is_body b1 = true -> is_start s2 = true ->
  run scan0 (lines_of r) = run scan0 (lines_of r')
  /\ (files (run scan0 (lines_of r)) <> ∅ ->
       parse_claude_response r = parse_claude_response r').
Proof.
  intros Hr Hr' Hs1 Hb1 Hs2.
  assert (Hrun : run scan0 (lines_of r) = run scan0 (lines_of r')).
  { rewrite Hr, Hr', !run_app.
    change (run (run scan0 pre) (s1 :: b1 ++ s2 :: post))
      with (run (step (run scan0 pre) s1) (b1 ++ s2 :: post)).
    rewrite run_app, (step_start _ _ Hs1), (run_inside b1) by done.
    change (run ?st (s2 :: post)) with (run (step st s2) post).
    rewrite !(step_start _ _ Hs2). reflexivity. }
  split; [exact Hrun|]. intros Hne.
  rewrite (parse_nonempty r Hne).
  rewrite (parse_nonempty r') by (rewrite <- Hrun; exact Hne).
  rewrite Hrun. reflexivity.
Qed.

Lemma parse_abandoned_block_witness :
  let r := "=== FILE: a.txt" +:+ Py.nl +:+ "lost" +:+ Py.nl +:+ "=== FILE: b.txt"
           +:+ Py.nl +:+ "kept" +:+ Py.nl +:+ "=== END FILE ===" in
  let r' := "=== FILE: b.txt" +:+ Py.nl +:+ "kept" +:+ Py.nl +:+ "=== END FILE ===" in
  parse_claude_response r = parse_claude_response r'
  /\ map_to_list (parse_claude_response r') = [("b.txt", "kept")].
Proof.
  intros r r'.
  destruct (parse_abandoned_block r r' [] "=== FILE: a.txt" ["lost"] "=== FILE: b.txt"
              ["kept"; "=== END FILE ==="]) as (_ & Hparse);
    try (vm_compute; reflexivity).
  split; [apply Hparse; vm_compute; discriminate | vm_compute; reflexivity].
Defined.

(** X14.  A complete block is extracted whatever surrounds it: its name
    is bound to its newline-joined body unless a later start marker names
    the same file again, and the default target is then not used. *)
Theorem parse_block_extracted (r : string) pre s b e post :
  lines_of r = pre ++ s :: b ++ e :: post ->
  is_start s = true -> Py.truthy (name_of s) = true ->
  forallb is_body b = true -> is_stop e = true ->
  forallb (fun l => negb (opens (name_of s) l)) post = true ->
  parse_claude_response r !! name_of s = Some (Py.join Py.nl b)
  /\ parse_claude_response r = files (run scan0 (lines_of r)).
Proof.
  intros Hr Hs Ht Hb He Hpost.
  assert (Hf : files (run scan0 (lines_of r)) !! name_of s = Some (Py.join Py.nl b)).
  { rewrite Hr.
    replace (pre ++ s :: b ++ e :: post) with (pre ++ (s :: b ++ [e]) ++ post)
      by (simplify_list_eq; reflexivity).
    rewrite run_app, run_app, run_block by done.
    rewrite run_keeps by (simpl; done). simpl. apply lookup_insert_eq. }
  rewrite parse_nonempty by (eapply lookup_nonempty, Hf). split; [exact Hf | reflexivity].
Qed.

Lemma parse_block_extracted_witness :
  let r := "Here are the files:" +:+ Py.nl +:+ "=== FILE: a.txt" +:+ Py.nl +:+ "one"
           +:+ Py.nl +:+ "two" +:+ Py.nl +:+ "=== END FILE ===" +:+ Py.nl
           +:+ "=== FILE: b.txt" +:+ Py.nl +:+ "three" +:+ Py.nl +:+ "=== END FILE ==="
           +:+ Py.nl +:+ "Done." in
  parse_claude_response r !! "a.txt" = Some ("one" +:+ Py.nl +:+ "two").
Proof.
  intros r.
  apply (parse_block_extracted r ["Here are the files:"] "=== FILE: a.txt"
           ["one"; "two"] "=== END FILE ==="
           ["=== FILE: b.txt"; "three"; "=== END FILE ==="; "Done."]);
    vm_compute; reflexivity.
Defined.

(** X15.  Writing a text between a start line and an end line and parsing
    the result gives the text back, character for character, as the only
    file: this holds for every text none of whose lines begins like a
    marker. *)
Theorem parse_block_roundtrip (header content footer : string) :
  is_start header = true -> Py.truthy (name_of header) = true ->
  Py.all_chars (Py.isnt "010") header = true ->
  is_stop footer = true ->
  Py.all_chars (Py.isnt "010") footer = true ->
  forallb is_body (lines_of content) = true ->
  parse_claude_response (header +:+ Py.nl +:+ content +:+ Py.nl +:+ footer)
  = {[ name_of header := content ]}.
Proof.
  intros Hs Ht Hh He Hf Hb.
  assert (Hl : lines_of (header +:+ Py.nl +:+ content +:+ Py.nl +:+ footer)
               = header :: lines_of content ++ [footer]).
  { rewrite lines_of_app, (lines_of_one _ Hh), lines_of_app, (lines_of_one _ Hf).
    reflexivity. }
  assert (Hrun : files (run scan0
                   (lines_of (header +:+ Py.nl +:+ content +:+ Py.nl +:+ footer)))
                 = {[ name_of header := content ]}).
  { rewrite Hl, run_block by done. cbn [files scan0].
    unfold lines_of, Py.nl. rewrite join_split_on. reflexivity. }
  rewrite parse_nonempty; [exact Hrun|].
  rewrite Hrun. apply (lookup_nonempty _ (name_of header) content), lookup_insert_eq.
Qed.

Lemma parse_block_roundtrip_witness :
  let content := "import os" +:+ Py.nl +:+ Py.nl +:+ "print(os.getcwd())  " +:+ Py.nl in
  parse_claude_response
    ("=== FILE: tool.py" +:+ Py.nl +:+ content +:+ Py.nl +:+ "=== END FILE ===")
  = {[ "tool.py" := content ]}.
Proof.
  intros content.
  apply (parse_block_roundtrip "=== FILE: tool.py" content "=== END FILE ===");
    vm_compute; reflexivity.
Defined.

(** X16.  The parser returns no file at all exactly for the blank
    responses: the result is the empty mapping iff nothing is left of the
    response once it is stripped. *)
Theorem parse_empty_iff_blank (r : string) :
  parse_claude_response r = ∅ <-> Py.strip r = "".
Proof.
  split.
  - unfold parse_claude_response.
    destruct (bool_decide _) eqn:Hd; cbn [andb].
    + destruct (Py.strip r) as [|c s]; [reflexivity|]. cbn [Py.truthy].
      intros H. apply (f_equal (fun m => m !! default_target)) in H.
      rewrite lookup_insert_eq, lookup_empty in H. discriminate.
    + apply bool_decide_eq_false in Hd. intros H. contradiction.
  - intros H. rewrite parse_empty.
    + rewrite H. reflexivity.
    + rewrite run_outside; [reflexivity | reflexivity | apply blank_lines_body, H].
Qed.

End ParserMore.

(** * Further properties of the webhook handler; the manual trigger *)

Module WebhookMore.
Import Webhook WebhookFacts Shapes.

Ltac next_result tac :=
  rewrite bind_lift;
  match goal with
  | |- context [match ?r with Ok _ => _ | Raise _ => _ end] =>
      destruct r eqn:?; [|tac]
  end.

Ltac next_test tac :=
  match goal with
  | |- context [if negb ?b then _ else _] => destruct b eqn:?; cbn [negb]; [|tac]
  end.

Ltac walk tac :=
  next_result tac; next_result tac; next_test tac;
  next_result tac; next_test tac;
  next_result tac; next_result tac; next_result tac; next_test tac;
  next_result tac; next_result tac; next_result tac; next_result tac.

Lemma get_ok v k o : get v k = Ok o -> exists m, v = JObj m /\ o = m !! k.
Proof. destruct v; simpl; try discriminate. intros [= <-]. eauto. Qed.

Lemma eq_str_true v s : eq_str v s = true -> v = Some (JStr s).
Proof.
  destruct v as [[| | |t| |]|]; simpl; try discriminate.
  intros ->%String.eqb_eq. reflexivity.
Qed.

Lemma has_label_true j :
  has_label j = Ok true -> exists l, j = JArr l /\ any_label l = Ok true.
Proof.
  destruct j as [| | |t|l|m]; simpl; try discriminate.
  - destruct (Py.truthy t); discriminate.
  - eauto.
  - destruct (size m =? 0)%nat; discriminate.
Qed.

Lemma handler_verified hmac endpoint env req :
  signature_check hmac env req = Ok true ->
  linear_webhook hmac endpoint env req []
  = linear_webhook hmac endpoint (mkEnviron None (GITHUB_TOKEN env)) req [].
Proof.
  intros Hv. unfold linear_webhook. rewrite !bind_lift.
  change (match linear_signature req with Some _ => _ | None => _ end)
    with (signature_check hmac env req) at 1.
  rewrite Hv. cbn. destruct (linear_signature req); reflexivity.
Qed.

Lemma dispatch_inv hmac endpoint env req d :
  fst (linear_webhook hmac endpoint env req []) = [d] ->
  exists ev im l,
    signature_check hmac env req = Ok true
    /\ json_body req = Some (JObj ev)
    /\ ev !! "type" = Some (JStr "Issue")
    /\ ev !! "action" = Some (JStr "update")
    /\ ev !! "data" = Some (JObj im)
    /\ im !! "labels" = Some (JArr l)
    /\ any_label l = Ok true
    /\ d = Trigger.dispatch_of (GITHUB_TOKEN env)
             (or_null (im !! "id")) (or_null (im !! "title"))
             (match im !! "description" with Some j => j | None => JStr "" end)
             (or_null (im !! "identifier")).
Proof.
  unfold linear_webhook. rewrite bind_lift.
  change (match linear_signature req with Some _ => _ | None => _ end)
    with (signature_check hmac env req).
  destruct (signature_check hmac env req) as [[|]|e] eqn:Hv;
    [|simpl; discriminate..].
  cbn [negb]. walk ltac:(simpl; discriminate).
  subst. destruct (json_body req) as [j|]; [|discriminate]. injection Heqr as ->.
  apply get_ok in Heqr0 as (ev & -> & ->). apply eq_str_true in Heqb.
  apply get_ok in Heqr1 as (ev' & [= <-] & ->). apply eq_str_true in Heqb0.
  apply get_ok in Heqr2 as (ev' & [= <-] & ->).
  apply get_ok in Heqr3 as (im & Him & ->).
  apply has_label_true in Heqr4 as (l & Hl & Hany).
  assert (Hdata : ev !! "data" = Some (JObj im) /\ im !! "labels" = Some (JArr l)).
  { destruct (ev !! "data") as [j|].
    - subst j. split; [reflexivity|].
      destruct (im !! "labels") as [j|]; [congruence|].
      injection Hl as <-. discriminate Hany.
    - injection Him as <-. rewrite lookup_empty in Hl. injection Hl as <-.
      discriminate Hany. }
  destruct Hdata as [Hd Hlab]. rewrite Hd in *.
  apply get_ok in Heqr5 as (? & [= <-] & ->).
  apply get_ok in Heqr6 as (? & [= <-] & ->).
  apply get_ok in Heqr7 as (? & [= <-] & ->).
  apply get_ok in Heqr8 as (? & [= <-] & ->).
  unfold bind, requests_post.
  match goal with |- context [endpoint ?x] => destruct (endpoint x) as [code text|] end;
    cbn; [destruct (code =? 204)|]; unfold ret; cbn; intros [= <-];
    exists ev, im, l; repeat (split; [assumption || reflexivity|]); reflexivity.
Qed.

Lemma handler_dispatches hmac endpoint env req ev im labels :
  signature_check hmac env req = Ok true ->
  json_body req = Some (JObj ev) ->
  ev !! "type" = Some (JStr "Issue") ->
  ev !! "action" = Some (JStr "update") ->
  ev !! "data" = Some (JObj im) ->
  im !! "labels" = Some labels ->
  has_label labels = Ok true ->
  let d := Trigger.dispatch_of (GITHUB_TOKEN env)
             (or_null (im !! "id")) (or_null (im !! "title"))
             (match im !! "description" with Some j => j | None => JStr "" end)
             (or_null (im !! "identifier")) in
  linear_webhook hmac endpoint env req [] = ([d], answer (endpoint d)).
Proof.
  intros Hv Hbody Htype Haction Hdata Hlab Hhas d.
  unfold linear_webhook. rewrite bind_lift.
  change (match linear_signature req with Some _ => _ | None => _ end)
    with (signature_check hmac env req).
  rewrite Hv. cbn [negb]. rewrite Hbody.
  rewrite bind_lift. cbn [get]. rewrite bind_lift, Htype. cbn [eq_str].
  rewrite String.eqb_refl. cbn [negb]. rewrite bind_lift, Haction. cbn [eq_str].
  rewrite String.eqb_refl. cbn [negb]. rewrite bind_lift, Hdata.
  rewrite bind_lift. cbn [get]. rewrite Hlab, bind_lift, Hhas. cbn [negb].
  rewrite !bind_lift. unfold bind, requests_post, answer, ret. fold d.
  destruct (endpoint _) as [code text|]; [|reflexivity].
  cbn [fst snd]. destruct (code =? 204); reflexivity.
Qed.

(** X17.  The endpoint is called for one kind of request only: the
    signature check passes, the body is an object of type [Issue] and action
    [update], its [data] is an object whose [labels] is a list in which the
    scan finds the trigger label.  The call then carries the four issue
    fields, a missing one as null and a missing description as the empty
    string, with the bearer token. *)
Theorem dispatch_iff hmac endpoint env req d :
  fst (linear_webhook hmac endpoint env req []) = [d]
  <-> exists ev im l,
        signature_check hmac env req = Ok true
        /\ json_body req = Some (JObj ev)
        /\ ev !! "type" = Some (JStr "Issue")
        /\ ev !! "action" = Some (JStr "update")
        /\ ev !! "data" = Some (JObj im)
        /\ im !! "labels" = Some (JArr l)
        /\ any_label l = Ok true
        /\ d = Trigger.dispatch_of (GITHUB_TOKEN env)
                 (or_null (im !! "id")) (or_null (im !! "title"))
                 (match im !! "description" with Some j => j | None => JStr "" end)
                 (or_null (im !! "identifier")).
Proof.
  split; [apply dispatch_inv|].
  intros (ev & im & l & Hv & Hb & Ht & Ha & Hd & Hl & Hany & ->).
  rewrite (handler_dispatches hmac endpoint env req ev im (JArr l)); done.
Qed.

Lemma dispatch_iff_witness :
  let env := mkEnviron None (Some "token") in
  let req := mkRequest "" None (Some labelled_issue) in
  fst (linear_webhook (fun _ _ => "") (fun _ => Reply 204 "") env req [])
  = [Trigger.dispatch_of (Some "token") (JStr "abc-1") (JStr "Add .env support")
       (JStr "") (JStr "PROJ-1")].
Proof.
  intros env req. apply dispatch_iff.
  eexists _, _, _. repeat apply conj; try reflexivity.
Defined.

(** X18.  The webhook and the manual trigger are interchangeable: for an
    accepted issue update whose four fields are strings, the handler makes
    the very call [trigger_workflow] makes for those strings and the same
    token, and it answers 200 exactly when the script returns normally and
    500 exactly when the script exits with status 1. *)
Theorem webhook_matches_manual_trigger hmac endpoint env req ev im labels
    token issue_id issue_title issue_description issue_identifier :
  signature_check hmac env req = Ok true ->
  json_body req = Some (JObj ev) ->
  ev !! "type" = Some (JStr "Issue") ->
  ev !! "action" = Some (JStr "update") ->
  ev !! "data" = Some (JObj im) ->
  im !! "labels" = Some labels ->
  has_label labels = Ok true ->
  im !! "id" = Some (JStr issue_id) ->
  im !! "title" = Some (JStr issue_title) ->
  im !! "description" = Some (JStr issue_description) ->
  im !! "identifier" = Some (JStr issue_identifier) ->
  GITHUB_TOKEN env = Some token -> Py.truthy token = true ->
  let manual := Trigger.trigger_workflow (Some token) endpoint
                  issue_id issue_title issue_description issue_identifier in
  let hooked := linear_webhook hmac endpoint env req [] in
  fst hooked = fst manual
  /\ (status_of (snd hooked) = Some 200 <-> snd manual = Trigger.Returned)
  /\ (status_of (snd hooked) = Some 500 <-> snd manual = Trigger.SystemExit 1).
Proof.
  intros Hv Hb Ht Ha Hd Hl Hhas Hid Htitle Hdesc Hident Htok Htruthy manual hooked.
  unfold hooked, manual.
  rewrite (handler_dispatches hmac endpoint env req ev im labels) by done.
  rewrite Hid, Htitle, Hdesc, Hident, Htok. unfold Trigger.trigger_workflow.
  cbn [opt_truthy or_null]. rewrite Htruthy. cbn [negb fst snd].
  split; [reflexivity|]. unfold answer.
  destruct (endpoint _) as [code text|]; [destruct (code =? 204)|]; cbn;
    split; split; (discriminate || reflexivity).
Qed.

Lemma webhook_matches_manual_trigger_witness :
  let event := JObj {[ "type" := JStr "Issue"; "action" := JStr "update";
                       "data" := JObj {[ "id" := JStr "abc-1";
                                         "title" := JStr "Add .env support";
                                         "description" := JStr "Create .env.example";
                                         "identifier" := JStr "PROJ-1";
                                         "labels" := JArr [JObj {[ "name" := JStr TARGET_LABEL ]}] ]} ]} in
  let env := mkEnviron None (Some "token") in
  let req := mkRequest "" None (Some event) in
  let endpoint := fun _ : dispatch => Reply 204 "" in
  fst (linear_webhook (fun _ _ => "") endpoint env req [])
  = fst (Trigger.main (Some "token") endpoint
           ["trigger_workflow.py"; "abc-1"; "Add .env support"; "Create .env.example";
            "PROJ-1"]).
Proof.
  intros event env req endpoint.
  eapply (webhook_matches_manual_trigger (fun _ _ => "") endpoint env req);
    reflexivity.
Defined.

(** X19.  A request signed with the configured secret is accepted: when
    the signature header is the hex digest of the raw body, the check
    passes and the request is handled exactly as if no secret were
    configured. *)
Theorem signed_request_accepted hmac endpoint env req secret :
  LINEAR_WEBHOOK_SECRET env = Some secret ->
  linear_signature req = Some (hmac (Py.encode secret) (data req)) ->
  Py.isascii (hmac (Py.encode secret) (data req)) = true ->
  signature_check hmac env req = Ok true
  /\ linear_webhook hmac endpoint env req []
     = linear_webhook hmac endpoint (mkEnviron None (GITHUB_TOKEN env)) req [].
Proof.
  intros Hs Hg Hascii.
  assert (Hv : signature_check hmac env req = Ok true).
  { unfold signature_check, verify_linear_signature, compare_digest.
    rewrite Hg, Hs. cbn [opt_truthy].
    destruct (Py.truthy secret); cbn [andb negb]; [|reflexivity].
    destruct (Py.truthy _); [|reflexivity].
    rewrite Hascii, String.eqb_refl. reflexivity. }
  split; [exact Hv | apply handler_verified, Hv].
Qed.

Lemma signed_request_accepted_witness :
  let hmac := fun key body : string => "5d" +:+ "41" in
  let env := mkEnviron (Some "secret") (Some "token") in
  let req := mkRequest "{}" (Some "5d41") (Some labelled_issue) in
  signature_check hmac env req = Ok true.
Proof.
  intros hmac env req.
  apply (signed_request_accepted hmac (fun _ => NoReply) env req "secret"); reflexivity.
Defined.

(** X20.  Whatever the request, an answer of the handler carries one of
    the three statuses 200, 401 and 500. *)
Theorem handler_statuses hmac endpoint env req s :
  status_of (snd (linear_webhook hmac endpoint env req [])) = Some s ->
  s = 200 \/ s = 401 \/ s = 500.
Proof.
  destruct (handler_cases hmac endpoint env req)
    as [[e E]|[[_ E]|[[_ [b E]]|[_ [d E]]]]]; rewrite E; cbn [snd status_of status].
  - discriminate.
  - intros [= <-]. auto.
  - intros [= <-]. auto.
  - intros [H|H]%answer_status; auto.
Qed.

Lemma handler_statuses_witness :
  let req := mkRequest "" None (Some (JObj {[ "type" := JStr "Comment" ]})) in
  let out := snd (linear_webhook (fun _ _ => "") (fun _ => NoReply)
                    (mkEnviron None None) req []) in
  status_of out = Some 200 /\ (200 = 200 \/ 200 = 401 \/ 200 = 500).
Proof.
  intros req out. split; [reflexivity|].
  apply (handler_statuses (fun _ _ => "") (fun _ => NoReply) (mkEnviron None None) req).
  reflexivity.
Defined.

(** The label scan. *)

Lemma any_label_others pre rest :
  forallb other_label pre = true -> any_label (pre ++ rest) = any_label rest.
Proof.
  induction pre as [|j pre IH]; [reflexivity|]. simpl.
  intros [Hj Hpre]%andb_true_iff. destruct j; try discriminate. simpl in *.
  apply negb_true_iff in Hj. rewrite Hj. apply IH, Hpre.
Qed.

(** X21.  The label scan stops at the first hit.  After any number of
    label objects with other names, an object named as the trigger label
    makes the answer true whatever follows it, an element that is not an
    object raises [AttributeError] whatever follows it, and the end of the
    list makes the answer false. *)
Theorem has_label_scan pre :
  forallb other_label pre = true ->
  (forall m post, m !! "name" = Some (JStr TARGET_LABEL) ->
     has_label (JArr (pre ++ JObj m :: post)) = Ok true)
  /\ (forall j post, is_obj j = false ->
       has_label (JArr (pre ++ j :: post)) = Raise AttributeError)
  /\ has_label (JArr pre) = Ok false.
Proof.
  intros Hpre. split; [|split].
  - intros m post Hm. cbn [has_label]. rewrite any_label_others by exact Hpre.
    simpl. rewrite Hm. reflexivity.
  - intros j post Hj. cbn [has_label]. rewrite any_label_others by exact Hpre.
    destruct j; (discriminate || reflexivity).
  - cbn [has_label]. rewrite <- (app_nil_r pre), any_label_others by exact Hpre.
    reflexivity.
Qed.

Lemma has_label_scan_witness :
  let bug := JObj {[ "name" := JStr "bug" ]} in
  let hit := JObj {[ "name" := JStr TARGET_LABEL ]} in
  has_label (JArr [bug; hit; JNum 3]) = Ok true
  /\ has_label (JArr [bug; JNum 3; hit]) = Raise AttributeError
  /\ has_label (JArr [bug]) = Ok false.
Proof.
  intros bug hit.
  destruct (has_label_scan [bug] eq_refl) as (Hhit & Hbad & Hnone).
  split; [|split].
  - apply (Hhit {[ "name" := JStr TARGET_LABEL ]} [JNum 3]). reflexivity.
  - apply (Hbad (JNum 3) [hit]). reflexivity.
  - exact Hnone.
Defined.

End WebhookMore.

Module TriggerFacts.
Import Webhook Trigger.

(** X22.  The script calls the endpoint exactly when it is given at least
    three arguments after its name and a non-empty token, and then once;
    in every other case it exits with status 1 without a call. *)
Theorem main_calls_iff token endpoint argv :
  ((exists d, fst (main token endpoint argv) = [d])
     <-> (4 <= length argv)%nat /\ opt_truthy token = true)
  /\ (fst (main token endpoint argv) = []
       -> snd (main token endpoint argv) = SystemExit 1)
  /\ (length (fst (main token endpoint argv)) <= 1)%nat.
Proof.
  unfold main, trigger_workflow.
  destruct argv as [|a0 [|a1 [|a2 [|a3 rest]]]]; cbn [length];
    try (split; [split; [intros [d [=]] | intros [? _]; lia]
                | split; [reflexivity | simpl; lia]]).
  destruct (opt_truthy token); cbn [negb fst snd length].
  - split; [split; [intros _; split; [lia | reflexivity] | intros _; eauto]|].
    split; [discriminate | lia].
  - split; [split; [intros [d [=]] | intros [_ [=]]]|].
    split; [reflexivity | lia].
Qed.

(** X23.  The script returns normally exactly when it made its call and
    the endpoint replied 204; a reply with any other status makes it exit
    with status 1, and the identifier it sends is the fifth entry of
    [argv] when there is one and [MANUAL-] followed by the issue id
    otherwise. *)
Theorem main_outcome token endpoint prog issue_id issue_title issue_description rest :
  opt_truthy token = true ->
  let identifier := match rest with
                    | given :: _ => given
                    | [] => "MANUAL-" +:+ issue_id
                    end in
  let d := dispatch_of token (JStr issue_id) (JStr issue_title)
             (JStr issue_description) (JStr identifier) in
  let run := main token endpoint
               (prog :: issue_id :: issue_title :: issue_description :: rest) in
  fst run = [d]
  /\ (snd run = Returned <-> exists text, endpoint d = Reply 204 text)
  /\ (snd run = SystemExit 1
       <-> exists code text, endpoint d = Reply code text /\ code <> 204)
  /\ (snd run = Uncaught RequestException <-> endpoint d = NoReply).
Proof.
  intros Htok identifier d run. unfold run, main, trigger_workflow.
  fold identifier. rewrite Htok. cbn [negb fst snd]. fold d.
  split; [reflexivity|].
  destruct (endpoint d) as [code text|].
  - destruct (Z.eqb_spec code 204) as [->|Hne].
    + split; [split; [eauto | reflexivity]|].
      split; [split; [discriminate | intros (? & ? & [= <- <-] & H); congruence]|].
      split; discriminate.
    + split; [split; [discriminate | intros (? & [= ? ?]); congruence]|].
      split; [split; [eauto | reflexivity]|].
      split; discriminate.
  - split; [split; [discriminate | intros (? & [=])]|].
    split; [split; [discriminate | intros (? & ? & [=] & _)]|].
    split; reflexivity.
Qed.

Lemma main_outcome_witness :
  let endpoint := fun d : dispatch =>
    match payload d with
    | JObj _ => Reply 204 ""
    | _ => Reply 422 "Unprocessable"
    end in
  fst (main (Some "token") endpoint ["trigger_workflow.py"; "7"; "Title"; "Text"])
  = [dispatch_of (Some "token") (JStr "7") (JStr "Title") (JStr "Text")
       (JStr "MANUAL-7")]
  /\ snd (main (Some "token") endpoint ["trigger_workflow.py"; "7"; "Title"; "Text"])
     = Returned.
Proof.
  intros endpoint.
  destruct (main_outcome (Some "token") endpoint "trigger_workflow.py" "7" "Title"
              "Text" [] eq_refl) as (Hcall & Hret & _).
  split; [exact Hcall|]. apply Hret. exists "". reflexivity.
Defined.

End TriggerFacts.
